(** * MediFriend: the triage resolver of [views.py]

    A shallow embedding of the three decision functions of the patient
    queue backend,

    - [validate_priority]            (views.py, lines 174-180),
    - [calculate_priority_fallback]  (views.py, lines 197-229),
    - [calculate_appointment]        (views.py, lines 231-270),

    together with the fragments of the Python runtime they call ([int],
    [float], [str.lower], [in], [datetime.strptime], date arithmetic), and
    the properties of the written specification checked against them.
    The second half covers the code around them: the text helpers
    [extract_priority_from_text] and [extract_date_from_text]
    (lines 182-195), [get_ai_recommendation] from the decoded answer on
    (lines 129-172), [add_patient] (lines 39-93), and the lookup chain of
    [diagnose_form] in main.py (line 80). *)

From Stdlib Require Import ZArith QArith Bool List Ascii String Lia.
From stdpp Require Import base option gmap strings.

Local Open Scope string_scope.
Local Open Scope Z_scope.

(** ** Python values and exceptions *)

Module Py.

(** The exception classes that the modelled fragment can raise. *)
Inductive exn : Set :=
| KeyError | IndexError | ValueError | TypeError | OverflowError
| AttributeError.

(** Outcome of evaluating a Python expression. *)
Inductive outcome (A : Type) : Type :=
| Ret (a : A)
| Raise (e : exn).
Arguments Ret {A} a.
Arguments Raise {A} e.

Definition obind {A B} (x : outcome A) (k : A -> outcome B) : outcome B :=
  match x with
  | Ret a => k a
  | Raise e => Raise e
  end.

Declare Scope outcome_scope.
Delimit Scope outcome_scope with outcome.
Notation "'let!' x ':=' e 'in' k" := (obind e (fun x => k))
  (at level 10, x name, e at level 100, k at level 200) : outcome_scope.

Definition exn_eqb (a b : exn) : bool :=
  match a, b with
  | KeyError, KeyError | IndexError, IndexError | ValueError, ValueError
  | TypeError, TypeError | OverflowError, OverflowError
  | AttributeError, AttributeError => true
  | _, _ => false
  end.

(** [except (E1, E2, ...)]: does the clause catch [e]?  None of the classes
    above is a subclass of another one. *)
Definition catches (classes : list exn) (e : exn) : bool :=
  existsb (exn_eqb e) classes.

(** [try: body / except classes: handler], for a body whose only effect is
    its outcome. *)
Definition try_except {A} (body : outcome A) (classes : list exn)
    (handler : outcome A) : outcome A :=
  match body with
  | Raise e => if catches classes e then handler else Raise e
  | Ret a => Ret a
  end.

(** A [float]: every finite binary64 value is a rational number, so the
    finite values are embedded in [Q]; the only operations the program
    performs on a float are an ordered comparison with a constant and the
    truncation done by [int]. *)
Inductive pyfloat : Type :=
| FNan
| FInf (negative : bool)
| FFin (q : Q).

(** The values [json.loads] produces.  A [str] is a sequence of code
    points; the model covers the code points 0..255 (one [ascii] each). *)
#[warnings="-register-all"]
Inductive pyval : Type :=
| PNone
| PBool (b : bool)
| PInt (z : Z)
| PFloat (f : pyfloat)
| PStr (s : string)
| PList (l : list pyval)
| PDict (d : list (string * pyval)).

(** [data[key]] on the request dictionary. *)
Definition getitem (data : gmap string pyval) (key : string) : outcome pyval :=
  match data !! key with
  | Some v => Ret v
  | None => Raise KeyError
  end.

(** [v[0]].  Indexing a [str] gives a one-character [str]; the keys of a
    JSON object are strings, so looking up the integer 0 in it fails. *)
Definition index0 (v : pyval) : outcome pyval :=
  match v with
  | PStr EmptyString => Raise IndexError
  | PStr (String c _) => Ret (PStr (String c EmptyString))
  | PList [] => Raise IndexError
  | PList (x :: _) => Ret x
  | PDict _ => Raise KeyError
  | PNone | PBool _ | PInt _ | PFloat _ => Raise TypeError
  end.

(** *** [str.lower] and [in] *)

Definition lower_char (c : ascii) : ascii :=
  let n := N_of_ascii c in
  if ((65 <=? n) && (n <=? 90)
      || (192 <=? n) && (n <=? 222) && negb (n =? 215))%N
  then ascii_of_N (n + 32) else c.

Fixpoint lower (s : string) : string :=
  match s with
  | EmptyString => EmptyString
  | String c s' => String (lower_char c) (lower s')
  end.

(** [v.lower()]: only [str] has the method. *)
Definition py_lower (v : pyval) : outcome string :=
  match v with
  | PStr s => Ret (lower s)
  | _ => Raise AttributeError
  end.

(** [needle in hay] on strings: substring containment. *)
Fixpoint contains (needle hay : string) : bool :=
  String.prefix needle hay
  || match hay with
     | EmptyString => false
     | String _ hay' => contains needle hay'
     end.

(** *** [int] *)

(** Characters removed from both ends by [int(str)]. *)
Definition is_space (c : ascii) : bool :=
  let n := N_of_ascii c in
  ((9 <=? n) && (n <=? 13) || (n =? 32) || (n =? 133) || (n =? 160))%N.

Definition digit_of (c : ascii) : option Z :=
  let n := N_of_ascii c in
  if ((48 <=? n) && (n <=? 57))%N then Some (Z.of_N n - 48) else None.

Fixpoint lstrip (s : string) : string :=
  match s with
  | String c s' => if is_space c then lstrip s' else s
  | EmptyString => EmptyString
  end.

(** [s] without its trailing run of spaces. *)
Fixpoint rstrip (s : string) : string :=
  match s with
  | EmptyString => EmptyString
  | String c s' =>
      match rstrip s' with
      | EmptyString => if is_space c then EmptyString else String c EmptyString
      | r => String c r
      end
  end.

Definition strip (s : string) : string := rstrip (lstrip s).

(** Decimal digits with single underscores between them.  [acc] is the
    value read so far, [n] the number of digits read so far and [prev] is
    true when the previous character was a digit. *)
Fixpoint digits_value (s : string) (acc : Z) (n : Z) (prev : bool)
  : option (Z * Z) :=
  match s with
  | EmptyString => if prev then Some (acc, n) else None
  | String c s' =>
      match digit_of c with
      | Some d => digits_value s' (10 * acc + d) (n + 1) true
      | None =>
          if Ascii.eqb c "_" && prev then digits_value s' acc n false
          else None
      end
  end.

(** [sys.get_int_max_str_digits()]: CPython 3.11 and later refuse to
    convert a decimal literal with more digits than this limit; 4300 is
    the default, 0 would switch the limit off. *)
Definition int_max_str_digits : Z := 4300.

Definition int_of_str (s : string) : outcome Z :=
  let t := strip s in
  let '(negative, body) :=
    match t with
    | String "-" r => (true, r)
    | String "+" r => (false, r)
    | _ => (false, t)
    end in
  match digits_value body 0 0 false with
  | None => Raise ValueError
  | Some (v, n) =>
      if (0 <? int_max_str_digits) && (int_max_str_digits <? n)
      then Raise ValueError
      else Ret (if negative then - v else v)
  end.

(** [int(v)].  A float is truncated towards zero. *)
Definition py_int (v : pyval) : outcome Z :=
  match v with
  | PNone | PList _ | PDict _ => Raise TypeError
  | PBool b => Ret (if b then 1 else 0)
  | PInt z => Ret z
  | PFloat FNan => Raise ValueError
  | PFloat (FInf _) => Raise OverflowError
  | PFloat (FFin q) => Ret (Z.quot (Qnum q) (Zpos (Qden q)))
  | PStr s => int_of_str s
  end.

(** [float(z)] for an [int]: round to nearest, ties to even, on 53 bits;
    [OverflowError] from [2^1024 - 2^970] on. *)
Definition float_of_int (z : Z) : outcome pyfloat :=
  let a := Z.abs z in
  if 2 ^ 1024 - 2 ^ 970 <=? a then Raise OverflowError
  else
    let k := Z.log2 a - 52 in
    if k <=? 0 then Ret (FFin (inject_Z z))
    else
      let q := Z.shiftr a k in
      let r := a - Z.shiftl q k in
      let half := 2 ^ (k - 1) in
      let q' := if r <? half then q
                else if half <? r then q + 1
                else if Z.even q then q else q + 1 in
      Ret (FFin (inject_Z (Z.sgn z * Z.shiftl q' k))).

Section Conversions.

(** [float(s)] for a [str] [s]: the correctly rounded value of a decimal
    literal, an infinity or a NaN, or [None] where Python raises
    [ValueError].  Which strings convert, and to what, is left open. *)
Variable float_of_str : string -> option pyfloat.

(** [float(v)]. *)
Definition py_float (v : pyval) : outcome pyfloat :=
  match v with
  | PNone | PList _ | PDict _ => Raise TypeError
  | PBool b => Ret (FFin (if b then 1%Q else 0%Q))
  | PInt z => float_of_int z
  | PFloat f => Ret f
  | PStr s =>
      match float_of_str s with
      | Some f => Ret f
      | None => Raise ValueError
      end
  end.

End Conversions.

(** [f > c] for a finite constant [c]; every comparison with a NaN is
    false. *)
Definition float_gt (f : pyfloat) (c : Q) : bool :=
  match f with
  | FNan => false
  | FInf negative => negb negative
  | FFin q => negb (Qle_bool q c)
  end.

End Py.

(** ** Dates and times

    A naive [datetime].  The calendar date is held as its proleptic
    Gregorian ordinal ([date.toordinal()], 1 for 0001-01-01): this is the
    number on which [datetime] compares dates, subtracts them and adds a
    [timedelta].  The clock reading [datetime.now()] lies far from
    [datetime.max], so the upper end of the calendar (year 9999) is left out
    of the arithmetic; [strptime] keeps both ends. *)

Module Datetime.

Import Py.
Local Open Scope outcome_scope.

Record datetime : Set := mkDatetime {
  date : Z;
  hour : Z;
  minute : Z;
  second : Z;
  microsecond : Z
}.

Definition is_leap (year : Z) : bool :=
  (year mod 4 =? 0) && (negb (year mod 100 =? 0) || (year mod 400 =? 0)).

Definition days_before_year (year : Z) : Z :=
  let y := year - 1 in y * 365 + y / 4 - y / 100 + y / 400.

Definition days_in_month (year month : Z) : Z :=
  match month with
  | 2 => if is_leap year then 29 else 28
  | 4 | 6 | 9 | 11 => 30
  | _ => 31
  end.

Definition days_before_month (year month : Z) : Z :=
  match month with
  | 1 => 0 | 2 => 31 | 3 => 59 | 4 => 90 | 5 => 120 | 6 => 151
  | 7 => 181 | 8 => 212 | 9 => 243 | 10 => 273 | 11 => 304 | _ => 334
  end + (if (2 <? month) && is_leap year then 1 else 0).

Definition ymd2ord (year month day : Z) : Z :=
  days_before_year year + days_before_month year month + day.

(** [date(year, month, day)] with its range checks. *)
Definition make_date (year month day : Z) : outcome Z :=
  if (1 <=? year) && (year <=? 9999) && (1 <=? month) && (month <=? 12)
     && (1 <=? day) && (day <=? days_in_month year month)
  then Ret (ymd2ord year month day)
  else Raise ValueError.

(** [datetime(year, month, day, hour, minute)] for a valid date. *)
Definition at_time (year month day hh mm : Z) : datetime :=
  mkDatetime (ymd2ord year month day) hh mm 0 0.

(** [t + timedelta(days=n)]. *)
Definition add_days (t : datetime) (n : Z) : datetime :=
  mkDatetime (date t + n) (hour t) (minute t) (second t) (microsecond t).

(** [datetime.combine(d, datetime.min.time()) + timedelta(hours=h)] for
    [0 <= h < 24]. *)
Definition midnight_plus_hours (d : Z) (h : Z) : datetime :=
  mkDatetime d h 0 0 0.

(** Chronological order, [t1 <= t2]. *)
Definition time_of_day (t : datetime) : Z :=
  ((hour t * 60 + minute t) * 60 + second t) * 1000000 + microsecond t.

Definition le (t1 t2 : datetime) : Prop :=
  date t1 < date t2 \/ (date t1 = date t2 /\ time_of_day t1 <= time_of_day t2).

(** *** [datetime.strptime(s, "%Y-%m-%d")]

    [_strptime] turns the format into the regular expression
    [(?P<Y>\d\d\d\d)-(?P<m>1[0-2]|0[1-9]|[1-9])-(?P<d>3[0-1]|[1-2]\d|0[1-9]|[1-9]| [1-9])],
    matches it at the start of the string, and raises [ValueError] when
    there is no match, when the match stops before the end of the string,
    or when the fields are not a date. *)

Definition digit_in (lo hi : Z) (c : ascii) : option Z :=
  match digit_of c with
  | Some d => if (lo <=? d) && (d <=? hi) then Some d else None
  | None => None
  end.

(** Two characters, digits in the given ranges. *)
Definition two_digits (lo1 hi1 lo2 hi2 : Z) (s : string) : option (Z * string) :=
  match s with
  | String a (String b r) =>
      match digit_in lo1 hi1 a, digit_in lo2 hi2 b with
      | Some x, Some y => Some (10 * x + y, r)
      | _, _ => None
      end
  | _ => None
  end.

Definition one_digit (lo hi : Z) (s : string) : option (Z * string) :=
  match s with
  | String a r =>
      match digit_in lo hi a with
      | Some x => Some (x, r)
      | None => None
      end
  | _ => None
  end.

Definition space_digit (lo hi : Z) (s : string) : option (Z * string) :=
  match s with
  | String " " r => one_digit lo hi r
  | _ => None
  end.

Definition hyphen (s : string) : option string :=
  match s with
  | String "-" r => Some r
  | _ => None
  end.

Definition four_digits (s : string) : option (Z * string) :=
  match s with
  | String a (String b (String c (String d r))) =>
      match digit_of a, digit_of b, digit_of c, digit_of d with
      | Some x, Some y, Some z, Some w =>
          Some (1000 * x + 100 * y + 10 * z + w, r)
      | _, _, _, _ => None
      end
  | _ => None
  end.

Definition month_alternatives : list (string -> option (Z * string)) :=
  [two_digits 1 1 0 2; two_digits 0 0 1 9; one_digit 1 9].

Definition day_alternatives : list (string -> option (Z * string)) :=
  [two_digits 3 3 0 1; two_digits 1 2 0 9; two_digits 0 0 1 9;
   one_digit 1 9; space_digit 1 9].

(** An alternation followed by the rest of the pattern [k]: the first
    alternative after which the rest matches wins. *)
Fixpoint first_match {A} (alts : list (string -> option (Z * string)))
    (s : string) (k : Z -> string -> option A) : option A :=
  match alts with
  | [] => None
  | alt :: alts' =>
      match
        match alt s with
        | Some (v, r) => k v r
        | None => None
        end
      with
      | Some res => Some res
      | None => first_match alts' s k
      end
  end.

(** The match of the pattern at the start of [s]: the three fields and the
    unmatched remainder. *)
Definition match_ymd (s : string) : option (Z * Z * Z * string) :=
  match four_digits s with
  | Some (y, r) =>
      match hyphen r with
      | Some r =>
          first_match month_alternatives r (fun m r =>
            match hyphen r with
            | Some r =>
                first_match day_alternatives r (fun d r => Some (y, m, d, r))
            | None => None
            end)
      | None => None
      end
  | None => None
  end.

Definition strptime (s : string) : outcome datetime :=
  match match_ymd s with
  | Some (y, m, d, EmptyString) =>
      let! day := make_date y m d in Ret (midnight_plus_hours day 0)
  | Some (_, _, _, String _ _) => Raise ValueError
  | None => Raise ValueError
  end.

End Datetime.

Import Py Datetime.
Local Open Scope outcome_scope.

(** ** The program *)

(** [validate_priority(priority)] *)
Definition validate_priority (priority : pyval) : outcome Z :=
  try_except
    (let! priority := py_int priority in
     Ret (Z.max 1 (Z.min 5 priority)))
    [ValueError; TypeError]
    (Ret 1).

(** *** The local variable [priority] of [calculate_priority_fallback]

    The function updates [priority] inside [try] blocks; an update made
    before an exception is raised stays in force after the handler.  Its
    body is therefore a computation over the current value of [priority]
    that ends with an outcome. *)

Definition M (A : Type) : Type := Z -> Z * outcome A.

Definition mret {A} (a : A) : M A := fun p => (p, Ret a).

Definition mbind {A B} (m : M A) (k : A -> M B) : M B :=
  fun p =>
    match m p with
    | (p', Ret a) => k a p'
    | (p', Raise e) => (p', Raise e)
    end.

(** An expression that does not touch [priority]. *)
Definition eval {A} (o : outcome A) : M A := fun p => (p, o).

(** [priority += n] *)
Definition add_priority (n : Z) : M unit := fun p => (p + n, Ret tt).

Definition get_priority : M Z := fun p => (p, Ret p).

(** [try: body / except classes: pass] *)
Definition try_pass (body : M unit) (classes : list exn) : M unit :=
  fun p =>
    match body p with
    | (p', Raise e) => if catches classes e then (p', Ret tt) else (p', Raise e)
    | (p', Ret u) => (p', Ret u)
    end.

Declare Scope prio_scope.
Delimit Scope prio_scope with prio.
Notation "'do' x '<-' m ; k" := (mbind m (fun x => k))
  (at level 10, x name, m at level 100, k at level 200) : prio_scope.
Notation "m ;; k" := (mbind m (fun _ => k))
  (at level 100, k at level 200, right associativity) : prio_scope.

Definition emergency_keywords : list string :=
  ["severe"; "pain"; "emergency"; "urgent"; "bleeding";
   "unconscious"; "vomiting"; "difficulty breathing"].

(** [any(keyword in data['description'].lower() for keyword in keywords)]:
    the generator evaluates its element expression once per keyword and
    [any] stops at the first true element. *)
Fixpoint any_keyword_in_description (data : gmap string pyval)
    (keywords : list string) : outcome bool :=
  match keywords with
  | [] => Ret false
  | keyword :: rest =>
      let! v := getitem data "description" in
      let! d := py_lower v in
      if contains keyword d then Ret true
      else any_keyword_in_description data rest
  end.

(** The fallback offsets, [{1: 14, 2: 10, 3: 5, 4: 1, 5: 0}.get(priority, 14)]. *)
Definition days_offset (priority : Z) : Z :=
  match priority with
  | 1 => 14
  | 2 => 10
  | 3 => 5
  | 4 => 1
  | 5 => 0
  | _ => 14
  end.

(** What the [if ai_date:] block of [calculate_appointment] does: it
    leaves the function with a value, or falls through. *)
Inductive flow : Set :=
| Return (appointment : datetime)
| FallThrough.

Definition ai_date_block (now : datetime) (priority : Z)
    (ai_date : option string) : outcome flow :=
  match ai_date with
  | None | Some EmptyString => Ret FallThrough
  | Some ai_date =>
      try_except
        (let! ai_datetime := strptime ai_date in
         if date now <=? date ai_datetime then
           if (4 <=? priority) && (2 <? date ai_datetime - date now) then
             Ret (Return (add_days now 1))
           else if (priority =? 3) && (7 <? date ai_datetime - date now) then
             Ret (Return (add_days now 5))
           else
             Ret (Return ai_datetime)
         else Ret FallThrough)
        [ValueError]
        (Ret FallThrough)
  end.

(** [calculate_appointment(priority, ai_date=None)]; [now] is the value of
    [datetime.now()] read on entry. *)
Definition calculate_appointment (now : datetime) (priority : Z)
    (ai_date : option string) : outcome datetime :=
  let! step := ai_date_block now priority ai_date in
  match step with
  | Return appointment => Ret appointment
  | FallThrough =>
      let appointment := add_days now (days_offset priority) in
      if (4 <=? priority) && (17 <=? hour now) then
        let next_day := date now + 1 in
        Ret (midnight_plus_hours next_day 9)
      else Ret appointment
  end.

(** [calculate_priority_fallback(data)], block by block: the stage, the
    vital signs, the keywords. *)

Section Resolver.

Variable float_of_str : string -> option pyfloat.

Abbreviation py_float := (Py.py_float float_of_str).

Local Open Scope prio_scope.

Definition stage_block (data : gmap string pyval) : M unit :=
  try_pass
    (do stage <- eval (let! v := getitem data "cancerStage" in
                       let! c := index0 v in
                       py_int c);
     add_priority (Z.min (stage - 1) 3))
    [ValueError; IndexError; TypeError].

Definition vitals_block (data : gmap string pyval) : M unit :=
  try_pass
    (do temp <- eval (let! v := getitem data "temp" in py_float v);
     (if float_gt temp (77 # 2) then add_priority 1 else mret tt) ;;
     do heart <- eval (let! v := getitem data "heart" in py_int v);
     if (100 <? heart) || (heart <? 60) then add_priority 1 else mret tt)
    [ValueError; TypeError].

Definition keyword_block (data : gmap string pyval) : M unit :=
  do hit <- eval (any_keyword_in_description data emergency_keywords);
  if (hit : bool) then add_priority 1 else mret tt.

Definition calculate_priority_fallback (data : gmap string pyval)
  : outcome Z :=
  snd ((stage_block data ;;
        vitals_block data ;;
        keyword_block data ;;
        do priority <- get_priority;
        mret (Z.min priority 5)) 1).

End Resolver.

(** ** Vocabulary of the specification *)

(** The AI date that the first block accepts: the string is there, it
    parses, and its date is not before today's. *)
Definition accepted_ai_date (now : datetime) (ai_date : option string)
  : option datetime :=
  match ai_date with
  | Some s =>
      match strptime s with
      | Ret d => if date now <=? date d then Some d else None
      | Raise _ => None
      end
  | None => None
  end.

(** The after-hours gate of the last [if]. *)
Definition after_hours (now : datetime) (priority : Z) : Prop :=
  4 <= priority /\ 17 <= hour now.

(** No usable AI date: absent (an empty string counts as absent),
    malformed, or a date before today's. *)
Inductive unusable (now : datetime) : option string -> Prop :=
| unusable_absent : unusable now None
| unusable_malformed s : (forall d, strptime s <> Ret d) -> unusable now (Some s)
| unusable_past s d :
    strptime s = Ret d -> date d < date now -> unusable now (Some s).

(** The offset table as the specification words it:
    [{1:14, 2:10, 3:5, 4:1, 5:0}], and 14 days for any other priority. *)
Definition offset_table (priority days : Z) : Prop :=
  (priority = 1 -> days = 14) /\ (priority = 2 -> days = 10) /\
  (priority = 3 -> days = 5) /\ (priority = 4 -> days = 1) /\
  (priority = 5 -> days = 0) /\ (priority < 1 \/ 5 < priority -> days = 14).

(** The clock readings and results of the worked examples. *)
Definition jan10_1000 : datetime := at_time 2024 1 10 10 0.
Definition jan10_1800 : datetime := at_time 2024 1 10 18 0.

(** The keyword test on a [str] description. *)
Definition has_emergency_keyword (desc : string) : bool :=
  existsb (fun keyword => contains keyword (lower desc)) emergency_keywords.

(** A keyword is a substring of the lowercased description. *)
Definition keyword_occurs (desc : string) : Prop :=
  exists keyword pre suf,
    In keyword emergency_keywords /\ lower desc = pre ++ keyword ++ suf.

(** What a [str] stage contributes: [min(digit - 1, 3)] for a leading
    decimal digit, nothing otherwise. *)
Definition stage_points (stage : string) : Z :=
  match stage with
  | String c _ =>
      match digit_of c with
      | Some d => Z.min (d - 1) 3
      | None => 0
      end
  | EmptyString => 0
  end.

Definition abnormal_heart (heart : Z) : bool := (100 <? heart) || (heart <? 60).

Definition high_temperature (temp : pyfloat) : bool := float_gt temp (77 # 2).

Definition points (b : bool) : Z := if b then 1 else 0.

(** The body of a request to [add_patient]: the nine required fields.
    Only four of them are read by the fallback. *)
Definition request_body (stage : string) (temp heart : pyval)
    (desc : string) : gmap string pyval :=
  {[ "name" := PStr "A. Patient";
     "email" := PStr "patient@example.org";
     "age" := PInt 54;
     "cancerStage" := PStr stage;
     "therapytype" := PStr "chemotherapy";
     "temp" := temp;
     "heart" := heart;
     "blood" := PStr "120/80";
     "description" := PStr desc ]}.

(** ** The rest of [views.py]

    The helpers of [get_ai_recommendation], the function itself from the
    decoded HTTP answer on, and [add_patient] between the decoded request
    body and the call of the ORM. *)

(** *** Regular expressions on [str]

    The classes [\s] and [\w] of a [str] pattern, on the code points
    0..255; [\d] is [digit_of]: among these code points the decimal
    digits are 0-9 alone.  Beyond them [\d] also matches the decimal
    digits of other scripts (fullwidth, Arabic-Indic, ...), which no
    string of this development contains. *)

Definition re_space (c : ascii) : bool :=
  let n := N_of_ascii c in
  ((9 <=? n) && (n <=? 13) || (28 <=? n) && (n <=? 32)
   || (n =? 133) || (n =? 160))%N.

Definition re_word (c : ascii) : bool :=
  let n := N_of_ascii c in
  ((48 <=? n) && (n <=? 57) || (65 <=? n) && (n <=? 90) || (n =? 95)
   || (97 <=? n) && (n <=? 122)
   || (n =? 170) || (n =? 178) || (n =? 179) || (n =? 181) || (n =? 185)
   || (n =? 186) || (188 <=? n) && (n <=? 190)
   || (192 <=? n) && (n <=? 214) || (216 <=? n) && (n <=? 246)
   || (248 <=? n))%N.

Definition re_digit (c : ascii) : bool :=
  match digit_of c with
  | Some _ => true
  | None => false
  end.

(** A sequence of one-character classes matched at the start of [s]: the
    matched text and what follows it. *)
Fixpoint match_classes (classes : list (ascii -> bool)) (s : string)
  : option (string * string) :=
  match classes with
  | [] => Some (EmptyString, s)
  | class :: classes' =>
      match s with
      | String c s' =>
          if class c then
            match match_classes classes' s' with
            | Some (m, r) => Some (String c m, r)
            | None => None
            end
          else None
      | EmptyString => None
      end
  end.

(** [re.search]: the match at the leftmost position that has one. *)
Fixpoint re_search {A} (match_at : string -> option A) (s : string)
  : option A :=
  match match_at s with
  | Some m => Some m
  | None =>
      match s with
      | String _ s' => re_search match_at s'
      | EmptyString => None
      end
  end.

(** *** [extract_date_from_text]: [re.search(r'\d{4}-\d{2}-\d{2}', text)] *)

Definition is_char (x : ascii) (c : ascii) : bool := Ascii.eqb c x.

Definition date_classes : list (ascii -> bool) :=
  [re_digit; re_digit; re_digit; re_digit; is_char "-";
   re_digit; re_digit; is_char "-"; re_digit; re_digit].

Definition date_at (s : string) : option string :=
  match match_classes date_classes s with
  | Some (m, _) => Some m
  | None => None
  end.

Definition extract_date_from_text (text : string) : option string :=
  re_search date_at text.

(** *** [extract_priority_from_text] *)

(** A letter of the pattern under [re.IGNORECASE]. *)
Definition letter (x : ascii) (c : ascii) : bool := Ascii.eqb (lower_char c) x.

Definition priority_classes : list (ascii -> bool) :=
  [letter "p"; letter "r"; letter "i"; letter "o"; letter "r"; letter "i";
   letter "t"; letter "y"].

(** [[:\s]*]: the class shares no character with [[1-5]], so the greedy
    star never gives a character back. *)
Fixpoint skip_separators (s : string) : string :=
  match s with
  | String c s' => if is_char ":" c || re_space c then skip_separators s' else s
  | EmptyString => EmptyString
  end.

(** [priority[:\s]*([1-5])] at the start of [s]: the value of group 1. *)
Definition labelled_priority_at (s : string) : option Z :=
  match match_classes priority_classes s with
  | Some (_, r) =>
      match skip_separators r with
      | String c _ => digit_in 1 5 c
      | EmptyString => None
      end
  | None => None
  end.

Definition next_is_word (s : string) : bool :=
  match s with
  | String c _ => re_word c
  | EmptyString => false
  end.

(** [re.search(r'\b([1-5])\b', text)]: a digit is a word character, so the
    two [\b] ask for no word character right before and right after it.
    [prev_word] tells whether the character before [s] is a word
    character. *)
Fixpoint lone_digit (prev_word : bool) (s : string) : option Z :=
  match s with
  | String c s' =>
      match digit_in 1 5 c with
      | Some d =>
          if negb prev_word && negb (next_is_word s') then Some d
          else lone_digit (re_word c) s'
      | None => lone_digit (re_word c) s'
      end
  | EmptyString => None
  end.

Definition extract_priority_from_text (text : string) : Z :=
  match re_search labelled_priority_at text with
  | Some d => d
  | None =>
      match lone_digit false text with
      | Some d => d
      | None => 1
      end
  end.

(** *** The JSON object inside the answer:
    [re.search(r'\{.*?\}', response_text, re.DOTALL)] *)

(** [.*?\}]: up to the first closing brace. *)
Fixpoint up_to_closing_brace (s : string) : option string :=
  match s with
  | String c s' =>
      if is_char "}" c then Some (String c EmptyString)
      else
        match up_to_closing_brace s' with
        | Some m => Some (String c m)
        | None => None
        end
  | EmptyString => None
  end.

Definition braces_at (s : string) : option string :=
  match s with
  | String c s' =>
      if is_char "{" c then
        match up_to_closing_brace s' with
        | Some m => Some (String c m)
        | None => None
        end
      else None
  | EmptyString => None
  end.

Definition json_match (response_text : string) : option string :=
  re_search braces_at response_text.

(** *** Truth values, membership and subscripts of decoded JSON *)

(** [bool(v)].  A [PDict] holds the items of the dict, each key once. *)
Definition truthy (v : pyval) : bool :=
  match v with
  | PNone => false
  | PBool b => b
  | PInt z => negb (z =? 0)
  | PFloat FNan => true
  | PFloat (FInf _) => true
  | PFloat (FFin q) => negb (Qnum q =? 0)
  | PStr EmptyString => false
  | PStr (String _ _) => true
  | PList [] => false
  | PList (_ :: _) => true
  | PDict [] => false
  | PDict (_ :: _) => true
  end.

Definition items_lookup (d : list (string * pyval)) (key : string)
  : option pyval :=
  match List.find (fun kv => String.eqb (fst kv) key) d with
  | Some kv => Some (snd kv)
  | None => None
  end.

(** [key in container] for a [str] key: a key of a dict, an element of a
    list, a substring of a string. *)
Definition py_in (key : string) (container : pyval) : outcome bool :=
  match container with
  | PDict d =>
      Ret match items_lookup d key with Some _ => true | None => false end
  | PList l =>
      Ret (existsb (fun v => match v with
                             | PStr s => String.eqb s key
                             | _ => false
                             end) l)
  | PStr s => Ret (contains key s)
  | PNone | PBool _ | PInt _ | PFloat _ => Raise TypeError
  end.

(** [container[key]] for a [str] key. *)
Definition subscript (container : pyval) (key : string) : outcome pyval :=
  match container with
  | PDict d =>
      match items_lookup d key with
      | Some v => Ret v
      | None => Raise KeyError
      end
  | _ => Raise TypeError
  end.

(** [container.get(key, default)] *)
Definition dict_get (container : pyval) (key : string) (default : pyval)
  : outcome pyval :=
  match container with
  | PDict d =>
      Ret match items_lookup d key with Some v => v | None => default end
  | _ => Raise AttributeError
  end.

Fixpoint lstrip_spaces (s : string) : string :=
  match s with
  | String c s' => if re_space c then lstrip_spaces s' else s
  | EmptyString => EmptyString
  end.

Fixpoint rstrip_spaces (s : string) : string :=
  match s with
  | EmptyString => EmptyString
  | String c s' =>
      match rstrip_spaces s' with
      | EmptyString => if re_space c then EmptyString else String c EmptyString
      | r => String c r
      end
  end.

(** [v.strip()]: [str.strip] removes the characters of [str.isspace], which
    on the code points 0..255 are those of [\s]. *)
Definition py_strip (v : pyval) : outcome string :=
  match v with
  | PStr s => Ret (rstrip_spaces (lstrip_spaces s))
  | _ => Raise AttributeError
  end.

(** *** [get_ai_recommendation], after the HTTP round trip

    [response_data] is what [response.json()] returned.  Everything from
    there on runs inside [try: ... except Exception as e: raise
    Exception(...)], so the function either returns its dictionary or
    raises [Exception]: [None] below. *)

Record recommendation : Type := mkRecommendation {
  rec_priority : Z;
  rec_appointment : pyval
}.

Definition attempt {A} (o : outcome A) : option A :=
  match o with
  | Ret a => Some a
  | Raise _ => None
  end.

(** [a or b] on conditions that may raise; [b] is not evaluated when [a]
    is true. *)
Definition or_else (a b : outcome bool) : outcome bool :=
  let! x := a in if (x : bool) then Ret true else b.

Definition not_in (key : string) (container : outcome pyval) : outcome bool :=
  let! c := container in let! b := py_in key c in Ret (negb b).

Definition is_falsy (v : outcome pyval) : outcome bool :=
  let! x := v in Ret (negb (truthy x)).

(** The condition of the structure check (lines 132-137). *)
Definition unexpected_structure (response_data : pyval) : outcome bool :=
  let candidates := subscript response_data "candidates" in
  let candidate := (let! c := candidates in index0 c) in
  let content := (let! c := candidate in subscript c "content") in
  let parts := (let! c := content in subscript c "parts") in
  let part := (let! p := parts in index0 p) in
  or_else (not_in "candidates" (Ret response_data))
   (or_else (is_falsy candidates)
     (or_else (not_in "content" candidate)
       (or_else (not_in "parts" content)
         (or_else (is_falsy parts)
           (not_in "text" part))))).

(** [response_data['candidates'][0]['content']['parts'][0]['text']] *)
Definition candidate_text (response_data : pyval) : outcome pyval :=
  let! candidates := subscript response_data "candidates" in
  let! candidate := index0 candidates in
  let! content := subscript candidate "content" in
  let! parts := subscript content "parts" in
  let! part := index0 parts in
  subscript part "text".

(** The two text extractions used when no JSON object can be read. *)
Definition extract_from_text (response_text : string) : recommendation :=
  mkRecommendation
    (extract_priority_from_text response_text)
    match extract_date_from_text response_text with
    | Some d => PStr d
    | None => PNone
    end.

(** What [json.loads] does on a text: it returns the decoded value, raises
    [json.JSONDecodeError], or raises something else ([ValueError] for an
    integer literal beyond the digit limit, [RecursionError] for a deeply
    nested value), which [except json.JSONDecodeError] does not catch. *)
Inductive json_result : Type :=
| Decoded (v : pyval)
| DecodeError
| OtherError.

Section AiRecommendation.

(** [json.loads] on the matched text. *)
Variable json_loads : string -> json_result.

(** Lines 143-166, on the stripped text of the answer. *)
Definition recommendation_of_text (response_text : string)
  : option recommendation :=
  match json_match response_text with
  | Some m =>
      match json_loads m with
      | Decoded ai_data =>
          attempt
            (let! p := dict_get ai_data "priority" PNone in
             let! priority := validate_priority p in
             let! appointment := dict_get ai_data "appointment" PNone in
             Ret (mkRecommendation priority appointment))
      | DecodeError => Some (extract_from_text response_text)
      | OtherError => None
      end
  | None => Some (extract_from_text response_text)
  end.

Definition get_ai_recommendation (response_data : pyval)
  : option recommendation :=
  match attempt (unexpected_structure response_data) with
  | Some false =>
      match attempt (let! t := candidate_text response_data in py_strip t) with
      | Some response_text => recommendation_of_text response_text
      | None => None
      end
  | Some true | None => None
  end.

End AiRecommendation.

(** *** [add_patient] *)

(** [calculate_appointment(priority, ai_date)] as [add_patient] calls it,
    with whatever value the answer held under 'appointment': a value that
    is true and not a [str] makes [strptime] raise [TypeError], which
    [except ValueError] does not catch. *)
Definition calculate_appointment_value (now : datetime) (priority : Z)
    (ai_date : pyval) : outcome datetime :=
  if truthy ai_date then
    match ai_date with
    | PStr s => calculate_appointment now priority (Some s)
    | _ => Raise TypeError
    end
  else calculate_appointment now priority None.

Definition required_fields : list string :=
  ["name"; "email"; "age"; "cancerStage"; "therapytype";
   "temp"; "heart"; "blood"; "description"].

(** The validation loop: the first field that is not in [data] or whose
    value is false. *)
Fixpoint first_missing_field (data : gmap string pyval)
    (fields : list string) : option string :=
  match fields with
  | [] => None
  | field :: rest =>
      match data !! field with
      | Some v =>
          if truthy v then first_missing_field data rest else Some field
      | None => Some field
      end
  end.

Inductive error_text : Type :=
| MissingRequiredField (field : string)
| InvalidJsonData
| InvalidRequestMethod
| ExceptionText (e : exn).

(** What [add_patient] answers.  [Created] stands for the run that reaches
    [Patient(...)] with this priority and appointment: the patient is built
    from the nine fields and saved, and the success response carries both.
    The database is outside this development: an exception of
    [Patient(...)] or [patient.save()] (answered with status 400 by the
    outer [except Exception]) has no counterpart here. *)
Inductive response : Type :=
| Created (priority : Z) (appointment : datetime)
| ErrorResponse (status : Z) (error : error_text).

Section AddPatient.

Variable float_of_str : string -> option pyfloat.

(** The inner [try]: the AI answer, or the fallback when anything in the
    first branch raises.  [ai] is the outcome of
    [get_ai_recommendation(data)], [None] when it raised. *)
Definition triage (now : datetime) (ai : option recommendation)
    (data : gmap string pyval) : outcome (Z * datetime) :=
  match
    match ai with
    | Some ai_response =>
        let priority := rec_priority ai_response in
        attempt
          (let! appointment_date :=
             calculate_appointment_value now priority
               (rec_appointment ai_response) in
           Ret (priority, appointment_date))
    | None => None
    end
  with
  | Some result => Ret result
  | None =>
      let! priority := calculate_priority_fallback float_of_str data in
      let! appointment_date := calculate_appointment now priority None in
      Ret (priority, appointment_date)
  end.

(** [add_patient(request)] for a request with this method whose body
    [json.loads] decoded to the object [data] ([None]: [json.loads] raised
    [json.JSONDecodeError] on the body).  A body that decodes to something
    other than an object, and a body on which [json.loads] raises another
    exception, are not covered. *)
Definition add_patient (now : datetime) (ai : option recommendation)
    (method : string) (body : option (gmap string pyval)) : response :=
  if String.eqb method "POST" then
    match body with
    | None => ErrorResponse 400 InvalidJsonData
    | Some data =>
        match first_missing_field data required_fields with
        | Some field => ErrorResponse 400 (MissingRequiredField field)
        | None =>
            match triage now ai data with
            | Ret (priority, appointment_date) =>
                Created priority appointment_date
            | Raise e => ErrorResponse 400 (ExceptionText e)
            end
        end
    end
  else ErrorResponse 405 InvalidRequestMethod.

End AddPatient.

(** ** [main.py]: the diagnosis read from the answer of the chat API

    [response_data.get("choices", [{}])[0].get("message", {})
       .get("content", "No response")] *)

Definition diagnosis_of (response_data : pyval) : outcome pyval :=
  let! choices := dict_get response_data "choices" (PList [PDict []]) in
  let! choice := index0 choices in
  let! message := dict_get choice "message" (PDict []) in
  dict_get message "content" (PStr "No response").

(** ** Vocabulary for the properties of the helpers *)

(** Every character of [s] satisfies [p]. *)
Fixpoint all_chars (p : ascii -> bool) (s : string) : bool :=
  match s with
  | String c s' => p c && all_chars p s'
  | EmptyString => true
  end.

(** Ten characters, four digits, two digits and two digits separated by
    hyphens. *)
Definition date_shaped (s : string) : bool :=
  match s with
  | String y1 (String y2 (String y3 (String y4 (String h1
      (String m1 (String m2 (String h2 (String d1 (String d2
        EmptyString))))))))) =>
      re_digit y1 && re_digit y2 && re_digit y3 && re_digit y4
      && Ascii.eqb h1 "-" && re_digit m1 && re_digit m2
      && Ascii.eqb h2 "-" && re_digit d1 && re_digit d2
  | _ => false
  end.

Definition digit_value (c : ascii) : Z :=
  match digit_of c with
  | Some d => d
  | None => 0
  end.

(** The three numbers written in a date-shaped string. *)
Definition date_fields (s : string) : Z * Z * Z :=
  match s with
  | String y1 (String y2 (String y3 (String y4 (String _
      (String m1 (String m2 (String _ (String d1 (String d2 _))))))))) =>
      (1000 * digit_value y1 + 100 * digit_value y2
       + 10 * digit_value y3 + digit_value y4,
       10 * digit_value m1 + digit_value m2,
       10 * digit_value d1 + digit_value d2)
  | _ => (0, 0, 0)
  end.

(** [s] is made of exactly one character of each class, in order. *)
Fixpoint matches_exactly (classes : list (ascii -> bool)) (s : string) : bool :=
  match classes, s with
  | [], EmptyString => true
  | class :: classes', String c s' => class c && matches_exactly classes' s'
  | _, _ => false
  end.

(** Characters that are not the digits 1 to 5. *)
Definition not_priority_digit (c : ascii) : bool :=
  match digit_in 1 5 c with
  | Some _ => false
  | None => true
  end.

Definition separator (c : ascii) : bool := is_char ":" c || re_space c.

Definition not_closing (c : ascii) : bool := negb (is_char "}" c).

Definition not_opening (c : ascii) : bool := negb (is_char "{" c).

(** An answer of the API with the given text in its first candidate. *)
Definition api_answer (text : pyval) : pyval :=
  PDict [("candidates",
          PList [PDict [("content",
                         PDict [("parts", PList [PDict [("text", text)]])])]])].

(** A field that fails the validation of [add_patient]. *)
Definition absent_or_false (data : gmap string pyval) (field : string) : Prop :=
  data !! field = None \/ exists v, data !! field = Some v /\ truthy v = false.

Definition present_and_true (data : gmap string pyval) (field : string) : Prop :=
  exists v, data !! field = Some v /\ truthy v = true.

(** ** The runtime model on sample inputs

    Values observed on CPython 3.11 for the same calls. *)

Example int_strips_spaces_and_underscores : int_of_str " 1_0 " = Ret 10.
Proof. reflexivity. Qed.

Example int_negative_literal : int_of_str "-12" = Ret (-12).
Proof. reflexivity. Qed.

Example int_rejects_double_underscore : int_of_str "1__0" = Raise ValueError.
Proof. reflexivity. Qed.

Example int_rejects_space_after_sign : int_of_str "+ 1" = Raise ValueError.
Proof. reflexivity. Qed.

Example int_rejects_letter : py_int (PStr "S") = Raise ValueError.
Proof. reflexivity. Qed.

Example int_truncates_float : py_int (PFloat (FFin (-39 # 10))) = Ret (-3).
Proof. reflexivity. Qed.

Example int_of_nan : py_int (PFloat FNan) = Raise ValueError.
Proof. reflexivity. Qed.

Example int_of_none : py_int PNone = Raise TypeError.
Proof. reflexivity. Qed.

Example float_rounds_to_even :
  float_of_int (2 ^ 53 + 1) = Ret (FFin (inject_Z (2 ^ 53))) /\
  float_of_int (2 ^ 53 + 3) = Ret (FFin (inject_Z (2 ^ 53 + 4))).
Proof. split; vm_compute; reflexivity. Qed.

Example float_of_huge_int : float_of_int (2 ^ 1024 - 2 ^ 970) = Raise OverflowError.
Proof. vm_compute. reflexivity. Qed.

Example lower_is_case_folding : lower "PAINLESS Today" = "painless today".
Proof. reflexivity. Qed.

Example ordinal_of_jan10 : ymd2ord 2024 1 10 = 738895.
Proof. reflexivity. Qed.

Example ordinal_of_last_day : ymd2ord 9999 12 31 = 3652059.
Proof. reflexivity. Qed.

Example strptime_iso : strptime "2024-01-11" = Ret (at_time 2024 1 11 0 0).
Proof. reflexivity. Qed.

Example strptime_short_fields : strptime "2024-1-5" = Ret (at_time 2024 1 5 0 0).
Proof. reflexivity. Qed.

Example strptime_space_padded_day :
  strptime "2024-01- 5" = Ret (at_time 2024 1 5 0 0).
Proof. reflexivity. Qed.

Example strptime_leap_day :
  strptime "2024-02-29" = Ret (at_time 2024 2 29 0 0) /\
  strptime "2023-02-29" = Raise ValueError.
Proof. split; reflexivity. Qed.

Example strptime_rejects :
  strptime "2024-01-32" = Raise ValueError /\
  strptime "0000-01-01" = Raise ValueError /\
  strptime "2024-13-01" = Raise ValueError /\
  strptime "2024-01-11 " = Raise ValueError /\
  strptime "20240111" = Raise ValueError /\
  strptime "tomorrow" = Raise ValueError.
Proof. repeat split; reflexivity. Qed.

(** ** Properties of [calculate_appointment] *)

Lemma strptime_raises s e : strptime s = Raise e -> e = ValueError.
Proof.
  unfold strptime, make_date.
  destruct (match_ymd s) as [[[[y m] d] [|c r]]|]; simpl;
    try (intros [= <-]; reflexivity).
  destruct (_ && _); simpl; intros [= <-]; reflexivity.
Qed.

Lemma strptime_midnight s d :
  strptime s = Ret d -> d = midnight_plus_hours (date d) 0.
Proof.
  unfold strptime.
  destruct (match_ymd s) as [[[[y m] d'] [|c r]]|]; try discriminate.
  destruct (make_date y m d') as [day|e]; simpl; [|discriminate].
  intros [= <-]. reflexivity.
Qed.

Lemma strptime_empty : strptime "" = Raise ValueError.
Proof. reflexivity. Qed.

(** The first block never raises, and what it does is decided by the
    accepted date. *)
Lemma ai_date_block_spec now priority ai_date :
  ai_date_block now priority ai_date =
  Ret match accepted_ai_date now ai_date with
      | None => FallThrough
      | Some d =>
          if (4 <=? priority) && (2 <? date d - date now) then
            Return (add_days now 1)
          else if (priority =? 3) && (7 <? date d - date now) then
            Return (add_days now 5)
          else Return d
      end.
Proof.
  unfold ai_date_block, accepted_ai_date.
  destruct ai_date as [[|c s]|]; [reflexivity| |reflexivity].
  destruct (strptime (String c s)) as [d|e] eqn:Hp; simpl.
  - destruct (date now <=? date d); [|reflexivity].
    destruct (_ && _); [reflexivity|].
    destruct (_ && _); reflexivity.
  - apply strptime_raises in Hp. subst e. reflexivity.
Qed.

Lemma calculate_appointment_spec now priority ai_date :
  calculate_appointment now priority ai_date =
  Ret match accepted_ai_date now ai_date with
      | Some d =>
          if (4 <=? priority) && (2 <? date d - date now) then add_days now 1
          else if (priority =? 3) && (7 <? date d - date now) then add_days now 5
          else d
      | None =>
          if (4 <=? priority) && (17 <=? hour now)
          then midnight_plus_hours (date now + 1) 9
          else add_days now (days_offset priority)
      end.
Proof.
  unfold calculate_appointment. rewrite ai_date_block_spec. simpl.
  destruct (accepted_ai_date now ai_date) as [d|].
  - destruct (_ && _); [reflexivity|]. destruct (_ && _); reflexivity.
  - destruct (_ && _); reflexivity.
Qed.

(** [calculate_appointment] returns a timestamp on every input. *)
Lemma calculate_appointment_total now priority ai_date :
  exists r, calculate_appointment now priority ai_date = Ret r.
Proof. rewrite calculate_appointment_spec. eexists. reflexivity. Qed.

Lemma after_hours_test now priority :
  (4 <=? priority) && (17 <=? hour now) = true <-> after_hours now priority.
Proof. unfold after_hours. rewrite andb_true_iff, !Z.leb_le. tauto. Qed.

Lemma le_add_days now n : 0 <= n -> le now (add_days now n).
Proof. unfold le, add_days, time_of_day. simpl. lia. Qed.

Lemma days_offset_nonneg priority : 0 <= days_offset priority.
Proof.
  unfold days_offset.
  repeat match goal with
         | |- context [match ?x with _ => _ end] => destruct x
         end; lia.
Qed.

Lemma unusable_iff now ai_date :
  unusable now ai_date <-> accepted_ai_date now ai_date = None.
Proof.
  unfold accepted_ai_date. split.
  - intros [|s Hs|s d Hs Hd]; [reflexivity| |].
    + destruct (strptime s) as [d|e]; [|reflexivity]. now destruct (Hs d).
    + rewrite Hs. destruct (Z.leb_spec (date now) (date d)); [lia|reflexivity].
  - destruct ai_date as [s|]; [|constructor].
    destruct (strptime s) as [d|e] eqn:Hs.
    + destruct (Z.leb_spec (date now) (date d)); [discriminate|].
      intros _. now apply unusable_past with d.
    + intros _. apply unusable_malformed. intros d. rewrite Hs. discriminate.
Qed.

Lemma days_offset_table priority : offset_table priority (days_offset priority).
Proof.
  unfold offset_table, days_offset.
  repeat match goal with
         | |- context [match ?x with _ => _ end] => destruct x
         end; repeat split; intros; lia.
Qed.

(** C2, as stated, fails: at 18:00 with priority 4 the accepted AI date
    "2024-01-11" is returned at midnight, not at 09:00; the after-hours
    override is not reached. *)
Lemma after_hours_override_skipped_cex :
  4 <= 4 /\ 17 <= hour jan10_1800 /\
  accepted_ai_date jan10_1800 (Some "2024-01-11") = Some (at_time 2024 1 11 0 0) /\
  calculate_appointment jan10_1800 4 (Some "2024-01-11")
    = Ret (at_time 2024 1 11 0 0) /\
  calculate_appointment jan10_1800 4 (Some "2024-01-11")
    <> Ret (midnight_plus_hours (date jan10_1800 + 1) 9).
Proof. vm_compute. repeat split; discriminate. Qed.

(** C2, amended: with priority >= 4 and a local hour >= 17 the result is
    tomorrow's date at 09:00 whenever no AI date is accepted (absent,
    malformed or past); an accepted AI date is returned by the first block
    (itself, or now + 1 day when it lies more than 2 days ahead) and the
    override does not apply. *)
Theorem after_hours_override_on_fall_through now priority ai_date :
  4 <= priority -> 17 <= hour now ->
  (unusable now ai_date ->
   calculate_appointment now priority ai_date
     = Ret (midnight_plus_hours (date now + 1) 9)) /\
  (forall d, accepted_ai_date now ai_date = Some d ->
   calculate_appointment now priority ai_date
     = Ret (if 2 <? date d - date now then add_days now 1 else d)).
Proof.
  intros Hp Hh. rewrite calculate_appointment_spec. split.
  - intros Hu. apply unusable_iff in Hu. rewrite Hu.
    assert (H : (4 <=? priority) && (17 <=? hour now) = true)
      by (apply after_hours_test; split; assumption).
    now rewrite H.
  - intros d ->.
    assert (H4 : (4 <=? priority) = true) by (apply Z.leb_le; assumption).
    assert (H3 : (priority =? 3) = false) by (apply Z.eqb_neq; lia).
    rewrite H4, H3. simpl. reflexivity.
Qed.

Lemma after_hours_override_on_fall_through_witness :
  4 <= 4 /\ 17 <= hour jan10_1800 /\ unusable jan10_1800 None /\
  calculate_appointment jan10_1800 4 None = Ret (at_time 2024 1 11 9 0) /\
  calculate_appointment jan10_1800 4 (Some "2024-01-11")
    = Ret (at_time 2024 1 11 0 0).
Proof.
  assert (H4 : 4 <= 4) by lia.
  assert (H17 : 17 <= hour jan10_1800) by (vm_compute; discriminate).
  destruct (after_hours_override_on_fall_through jan10_1800 4 None H4 H17)
    as [Hnone _].
  destruct (after_hours_override_on_fall_through jan10_1800 4
              (Some "2024-01-11") H4 H17) as [_ Hsome].
  split; [exact H4|]. split; [exact H17|]. split; [constructor|]. split.
  - rewrite (Hnone (unusable_absent _)). reflexivity.
  - rewrite (Hsome (at_time 2024 1 11 0 0) eq_refl). reflexivity.
Defined.

(** C3, as stated, fails: at 10:00 the AI date "2024-01-10" (today) is
    accepted and returned at 00:00, which is before now, although the
    after-hours rule is not involved. *)
Lemma same_day_ai_date_before_now_cex :
  calculate_appointment jan10_1000 1 (Some "2024-01-10")
    = Ret (at_time 2024 1 10 0 0) /\
  ~ after_hours jan10_1000 1 /\
  ~ le jan10_1000 (at_time 2024 1 10 0 0).
Proof.
  split; [reflexivity|]. split.
  - unfold after_hours. lia.
  - unfold le. vm_compute. intros [H|[_ H]]; [discriminate H|now apply H].
Qed.

(** C3, amended: for every priority and every (possibly absent) AI date
    string [calculate_appointment] returns a timestamp whose calendar date
    is not before today's; the timestamp itself is not before now (the
    after-hours 09:00 override included) unless the accepted AI date is
    today's date, which is returned at 00:00. *)
Theorem appointment_not_before_today now priority ai_date :
  exists r,
    calculate_appointment now priority ai_date = Ret r /\
    date now <= date r /\
    (le now r \/
     (accepted_ai_date now ai_date = Some r /\
      r = midnight_plus_hours (date now) 0)).
Proof.
  rewrite calculate_appointment_spec.
  destruct (accepted_ai_date now ai_date) as [d|] eqn:Hacc.
  - assert (Hd : date now <= date d /\ d = midnight_plus_hours (date d) 0).
    { unfold accepted_ai_date in Hacc.
      destruct ai_date as [s|]; [|discriminate].
      destruct (strptime s) as [d'|e] eqn:Hs; [|discriminate].
      destruct (Z.leb_spec (date now) (date d')); [|discriminate].
      injection Hacc as ->. split; [assumption|].
      now apply strptime_midnight with s. }
    destruct Hd as [Hle Hmid].
    destruct (_ && _).
    { eexists; split; [reflexivity|]. split; [simpl; lia|].
      left; apply le_add_days; lia. }
    destruct (_ && _).
    { eexists; split; [reflexivity|]. split; [simpl; lia|].
      left; apply le_add_days; lia. }
    exists d. split; [reflexivity|]. split; [assumption|].
    destruct (Z.eq_dec (date d) (date now)) as [Heq|Hne].
    + right. split; [reflexivity|]. now rewrite <- Heq.
    + left. left. lia.
  - destruct (_ && _).
    + eexists; split; [reflexivity|]. split; [simpl; lia|].
      left. left. simpl. lia.
    + pose proof (days_offset_nonneg priority).
      eexists; split; [reflexivity|]. split; [simpl; lia|].
      left. now apply le_add_days.
Qed.

(** C5: with no usable AI date (absent, malformed or past) and the
    after-hours override not firing, the result is now plus the offset of
    the table [{1:14, 2:10, 3:5, 4:1, 5:0}], 14 days for any other
    priority. *)
Theorem fallback_offset_table now priority ai_date :
  unusable now ai_date -> ~ after_hours now priority ->
  exists days,
    offset_table priority days /\
    calculate_appointment now priority ai_date = Ret (add_days now days).
Proof.
  intros Hu Hah. exists (days_offset priority).
  split; [apply days_offset_table|].
  rewrite calculate_appointment_spec.
  apply unusable_iff in Hu. rewrite Hu.
  destruct (_ && _) eqn:Hg; [|reflexivity].
  apply after_hours_test in Hg. contradiction.
Qed.

(** Priority 5 at 2024-01-10T10:00 yields 2024-01-10, priority 1 yields
    2024-01-24. *)
Lemma fallback_offset_table_witness :
  unusable jan10_1000 None /\
  ~ after_hours jan10_1000 5 /\ ~ after_hours jan10_1000 1 /\
  calculate_appointment jan10_1000 5 None = Ret (at_time 2024 1 10 10 0) /\
  calculate_appointment jan10_1000 1 None = Ret (at_time 2024 1 24 10 0).
Proof.
  assert (Hu : unusable jan10_1000 None) by constructor.
  assert (H5 : ~ after_hours jan10_1000 5)
    by (intros [_ H]; vm_compute in H; now apply H).
  assert (H1 : ~ after_hours jan10_1000 1)
    by (intros [H _]; vm_compute in H; now apply H).
  split; [exact Hu|]. split; [exact H5|]. split; [exact H1|]. split.
  - destruct (fallback_offset_table jan10_1000 5 None Hu H5)
      as (days & (_ & _ & _ & _ & Hd & _) & ->).
    rewrite (Hd eq_refl). reflexivity.
  - destruct (fallback_offset_table jan10_1000 1 None Hu H1)
      as (days & (Hd & _) & ->).
    rewrite (Hd eq_refl). reflexivity.
Defined.

(** C6, as stated, fails after hours: at 18:00 with priority 4 the past
    date "2024-01-09" is discarded, but the result is next morning 09:00
    and not the table value now + 1 day. *)
Lemma unusable_ai_date_after_hours_cex :
  unusable jan10_1800 (Some "2024-01-09") /\
  calculate_appointment jan10_1800 4 (Some "2024-01-09")
    = Ret (at_time 2024 1 11 9 0) /\
  add_days jan10_1800 (days_offset 4) = at_time 2024 1 11 18 0 /\
  calculate_appointment jan10_1800 4 (Some "2024-01-09")
    <> Ret (add_days jan10_1800 (days_offset 4)).
Proof.
  split.
  - apply unusable_past with (at_time 2024 1 9 0 0); [reflexivity|].
    vm_compute. reflexivity.
  - vm_compute. repeat split. discriminate.
Qed.

(** C6, amended: a malformed or past AI date string is discarded without
    an exception, and the result is the one for an absent AI date: now
    plus the table offset, or next morning 09:00 when the after-hours
    override fires. *)
Theorem unusable_ai_date_discarded now priority s :
  unusable now (Some s) ->
  calculate_appointment now priority (Some s)
    = calculate_appointment now priority None /\
  exists days,
    offset_table priority days /\
    (~ after_hours now priority ->
     calculate_appointment now priority (Some s) = Ret (add_days now days)) /\
    (after_hours now priority ->
     calculate_appointment now priority (Some s)
       = Ret (midnight_plus_hours (date now + 1) 9)).
Proof.
  intros Hu. apply unusable_iff in Hu.
  rewrite !calculate_appointment_spec, Hu. simpl. split; [reflexivity|].
  exists (days_offset priority). split; [apply days_offset_table|].
  destruct (_ && _) eqn:Hg.
  - apply after_hours_test in Hg. split; [contradiction|reflexivity].
  - split; [reflexivity|]. intros Hah. apply after_hours_test in Hah.
    congruence.
Qed.

(** Priority 2 at 2024-01-10T10:00 with the past date "2024-01-09" yields
    2024-01-20. *)
Lemma unusable_ai_date_discarded_witness :
  unusable jan10_1000 (Some "2024-01-09") /\
  ~ after_hours jan10_1000 2 /\
  calculate_appointment jan10_1000 2 (Some "2024-01-09")
    = Ret (at_time 2024 1 20 10 0).
Proof.
  assert (Hu : unusable jan10_1000 (Some "2024-01-09")).
  { apply unusable_past with (at_time 2024 1 9 0 0); [reflexivity|].
    vm_compute. reflexivity. }
  assert (H2 : ~ after_hours jan10_1000 2)
    by (intros [H _]; vm_compute in H; now apply H).
  split; [exact Hu|]. split; [exact H2|].
  destruct (unusable_ai_date_discarded jan10_1000 2 "2024-01-09" Hu)
    as (_ & days & (_ & Hd & _) & Hres & _).
  rewrite (Hres H2), (Hd eq_refl). reflexivity.
Defined.

(** C7: an AI date that parses, is not before today's date and lies more
    than 7 days ahead is replaced, for priority 3, by now + 5 days. *)
Theorem medium_priority_far_date_overridden now priority s d :
  strptime s = Ret d -> date now <= date d -> priority = 3 ->
  7 < date d - date now ->
  calculate_appointment now priority (Some s) = Ret (add_days now 5).
Proof.
  intros Hs Hle -> Hgap. rewrite calculate_appointment_spec.
  unfold accepted_ai_date. rewrite Hs.
  destruct (Z.leb_spec (date now) (date d)); [|lia].
  destruct (Z.ltb_spec 7 (date d - date now)); [|lia].
  reflexivity.
Qed.

(** Priority 3 at 2024-01-10T10:00 with "2024-02-01" yields 2024-01-15. *)
Lemma medium_priority_far_date_overridden_witness :
  strptime "2024-02-01" = Ret (at_time 2024 2 1 0 0) /\
  date jan10_1000 <= date (at_time 2024 2 1 0 0) /\
  7 < date (at_time 2024 2 1 0 0) - date jan10_1000 /\
  calculate_appointment jan10_1000 3 (Some "2024-02-01")
    = Ret (at_time 2024 1 15 10 0).
Proof.
  assert (Hs : strptime "2024-02-01" = Ret (at_time 2024 2 1 0 0))
    by reflexivity.
  assert (Hle : date jan10_1000 <= date (at_time 2024 2 1 0 0))
    by (vm_compute; discriminate).
  assert (Hgap : 7 < date (at_time 2024 2 1 0 0) - date jan10_1000)
    by (vm_compute; reflexivity).
  split; [exact Hs|]. split; [exact Hle|]. split; [exact Hgap|].
  rewrite (medium_priority_far_date_overridden jan10_1000 3 "2024-02-01"
             (at_time 2024 2 1 0 0) Hs Hle eq_refl Hgap).
  reflexivity.
Defined.

(** ** Properties of the keyword check *)

Lemma append_cons c (a b : string) : String c a ++ b = String c (a ++ b).
Proof. reflexivity. Qed.

Lemma prefix_iff a b :
  String.prefix a b = true <-> exists suf, b = a ++ suf.
Proof.
  revert b. induction a as [|c a IH]; intros b; simpl.
  - destruct b; split; eauto.
  - destruct b as [|c' b].
    + split; [discriminate|]. intros [suf H]. discriminate H.
    + simpl. destruct (ascii_dec c c') as [Heq|Hne].
      * subst c'. rewrite IH.
        split; intros [suf H]; exists suf; rewrite append_cons in *; congruence.
      * split; [discriminate|]. intros [suf H]. rewrite append_cons in H.
        congruence.
Qed.

(** [contains] is substring containment. *)
Lemma contains_iff needle hay :
  contains needle hay = true <-> exists pre suf, hay = pre ++ needle ++ suf.
Proof.
  induction hay as [|c hay IH].
  - change (contains needle "") with (String.prefix needle "" || false).
    rewrite orb_false_r, prefix_iff. split.
    + intros [suf H]. exists "", suf. exact H.
    + intros (pre & suf & H). destruct pre; [|discriminate H].
      exists suf. exact H.
  - change (contains needle (String c hay))
      with (String.prefix needle (String c hay) || contains needle hay).
    rewrite orb_true_iff, prefix_iff, IH. split.
    + intros [[suf H]|(pre & suf & H)].
      * exists "", suf. exact H.
      * exists (String c pre), suf. rewrite append_cons. now rewrite H.
    + intros (pre & suf & H). destruct pre as [|c' pre].
      * left. exists suf. exact H.
      * right. exists pre, suf. rewrite append_cons in H. congruence.
Qed.

(** With a [str] description the generator is a plain [existsb]. *)
Lemma any_keyword_in_description_str data desc keywords :
  data !! "description" = Some (PStr desc) ->
  any_keyword_in_description data keywords
    = Ret (existsb (fun keyword => contains keyword (lower desc)) keywords).
Proof.
  intros Hd. induction keywords as [|k ks IH]; [reflexivity|].
  cbn [any_keyword_in_description existsb]. unfold getitem. rewrite Hd.
  cbn [obind py_lower]. rewrite IH.
  destruct (contains k (lower desc)); reflexivity.
Qed.

Lemma has_emergency_keyword_iff desc :
  has_emergency_keyword desc = true <->
  exists keyword pre suf,
    In keyword emergency_keywords /\ lower desc = pre ++ keyword ++ suf.
Proof.
  unfold has_emergency_keyword. rewrite existsb_exists. split.
  - intros (k & Hin & Hc). apply contains_iff in Hc as (pre & suf & H).
    now exists k, pre, suf.
  - intros (k & pre & suf & Hin & H). exists k. split; [exact Hin|].
    apply contains_iff. now exists pre, suf.
Qed.

(** ** Properties of [validate_priority] and [calculate_priority_fallback] *)

(** [int] of a one-character string succeeds on the ten digits only. *)
Lemma int_of_char c :
  int_of_str (String c "")
  = match digit_of c with
    | Some d => Ret d
    | None => Raise ValueError
    end.
Proof. destruct c as [[] [] [] [] [] [] [] []]; reflexivity. Qed.

Lemma digit_of_range c d : digit_of c = Some d -> 0 <= d <= 9.
Proof.
  destruct c as [[] [] [] [] [] [] [] []]; vm_compute;
    intros [= <-]; split; discriminate.
Qed.

Lemma stage_block_str data stage p :
  data !! "cancerStage" = Some (PStr stage) ->
  stage_block data p = (p + stage_points stage, Ret tt).
Proof.
  intros H. unfold stage_block, try_pass, mbind, eval, getitem. rewrite H.
  destruct stage as [|c s]; simpl.
  - now rewrite Z.add_0_r.
  - rewrite int_of_char. destruct (digit_of c); simpl; [reflexivity|].
    now rewrite Z.add_0_r.
Qed.

Lemma keyword_block_str data desc p :
  data !! "description" = Some (PStr desc) ->
  keyword_block data p = (p + points (has_emergency_keyword desc), Ret tt).
Proof.
  intros H. unfold keyword_block, mbind, eval.
  rewrite (any_keyword_in_description_str _ _ _ H).
  fold (has_emergency_keyword desc).
  destruct (has_emergency_keyword desc); simpl; [reflexivity|].
  now rewrite Z.add_0_r.
Qed.

Section Fallback.

Variable float_of_str : string -> option pyfloat.

Lemma vitals_block_typed data temp heart p :
  data !! "temp" = Some (PFloat temp) ->
  data !! "heart" = Some (PInt heart) ->
  vitals_block float_of_str data p
  = (p + points (high_temperature temp) + points (abnormal_heart heart),
     Ret tt).
Proof.
  intros Ht Hh. unfold vitals_block, try_pass, mbind, eval, getitem.
  rewrite Ht, Hh. simpl. fold (high_temperature temp).
  fold (abnormal_heart heart).
  destruct (high_temperature temp), (abnormal_heart heart); simpl;
    rewrite ?Z.add_0_r; reflexivity.
Qed.

(** On an intake whose four fields have the types of the data model the
    function is the clamped sum of the base and the four contributions. *)
Lemma calculate_priority_fallback_typed data stage temp heart desc :
  data !! "cancerStage" = Some (PStr stage) ->
  data !! "temp" = Some (PFloat temp) ->
  data !! "heart" = Some (PInt heart) ->
  data !! "description" = Some (PStr desc) ->
  calculate_priority_fallback float_of_str data
  = Ret (Z.min (1 + stage_points stage + points (high_temperature temp)
                + points (abnormal_heart heart)
                + points (has_emergency_keyword desc)) 5).
Proof.
  intros Hs Ht Hh Hd. unfold calculate_priority_fallback, mbind.
  rewrite (stage_block_str _ _ _ Hs), (vitals_block_typed _ _ _ _ Ht Hh),
    (keyword_block_str _ _ _ Hd).
  reflexivity.
Qed.

(** C1: on the intake of the worked example the function returns 4, not
    5.  The first character of "Stage 4" is the letter S, [int] rejects
    it and the stage contributes nothing: 1 + 0 + 1 + 1 + 1. *)
Theorem stage_4_example_returns_4 :
  calculate_priority_fallback float_of_str
    (request_body "Stage 4" (PFloat (FFin (39 # 1))) (PInt 110) "severe pain")
  = Ret 4.
Proof. vm_compute. reflexivity. Qed.

(** The value of the worked example is reached when the field starts with
    the digit. *)
Lemma stage_digit_example_returns_5 :
  calculate_priority_fallback float_of_str
    (request_body "4" (PFloat (FFin (39 # 1))) (PInt 110) "severe pain")
  = Ret 5.
Proof. vm_compute. reflexivity. Qed.

(** C8: a stage that starts with the digit 0 takes one point off the
    base, and the result 0 lies below the interval [1,5]. *)
Theorem stage_0_returns_0 :
  calculate_priority_fallback float_of_str
    (request_body "0" (PFloat (FFin (37 # 1))) (PInt 80) "routine checkup")
  = Ret 0.
Proof. vm_compute. reflexivity. Qed.

(** C9: a heart rate that is a float infinity (the JSON number 1e999)
    makes [int] raise [OverflowError], which the handler
    [except (ValueError, TypeError)] lets through. *)
Theorem infinite_heart_rate_raises :
  calculate_priority_fallback float_of_str
    (request_body "2" (PFloat (FFin (37 # 1))) (PFloat (FInf false)) "cough")
  = Raise OverflowError.
Proof. vm_compute. reflexivity. Qed.

(** An integer temperature too large for a float does the same through
    [float]. *)
Lemma huge_temperature_raises :
  calculate_priority_fallback float_of_str
    (request_body "2" (PInt (10 ^ 400)) (PInt 80) "cough")
  = Raise OverflowError.
Proof. vm_compute. reflexivity. Qed.

Lemma stage_points_bounds stage : -1 <= stage_points stage <= 3.
Proof.
  unfold stage_points. destruct stage as [|c s]; [lia|].
  destruct (digit_of c) as [d|] eqn:Hd; [|lia].
  apply digit_of_range in Hd. lia.
Qed.

Lemma stage_points_positive_digit c rest d :
  digit_of c = Some d -> 1 <= d -> 0 <= stage_points (String c rest).
Proof. unfold stage_points. intros -> ?. lia. Qed.

Lemma stage_points_monotone c1 rest1 d1 c2 rest2 d2 :
  digit_of c1 = Some d1 -> digit_of c2 = Some d2 -> d1 <= d2 ->
  stage_points (String c1 rest1) <= stage_points (String c2 rest2).
Proof. unfold stage_points. intros -> -> ?. lia. Qed.

Lemma points_bounds b : 0 <= points b <= 1.
Proof. destruct b; simpl; lia. Qed.

Lemma points_monotone b1 b2 :
  (b1 = true -> b2 = true) -> points b1 <= points b2.
Proof.
  destruct b1, b2; simpl; intros H; first [lia | discriminate (H eq_refl)].
Qed.

(** The part of C8 that the code keeps: on a typed intake the result is
    in [0,5], and in [1,5] unless the stage starts with the digit 0. *)
Lemma calculate_priority_fallback_range data stage temp heart desc :
  data !! "cancerStage" = Some (PStr stage) ->
  data !! "temp" = Some (PFloat temp) ->
  data !! "heart" = Some (PInt heart) ->
  data !! "description" = Some (PStr desc) ->
  exists r,
    calculate_priority_fallback float_of_str data = Ret r /\
    0 <= r <= 5 /\
    ((forall rest, stage <> String "0" rest) -> 1 <= r).
Proof.
  intros Hs Ht Hh Hd.
  rewrite (calculate_priority_fallback_typed _ _ _ _ _ Hs Ht Hh Hd).
  eexists; split; [reflexivity|].
  pose proof (stage_points_bounds stage).
  pose proof (points_bounds (high_temperature temp)).
  pose proof (points_bounds (abnormal_heart heart)).
  pose proof (points_bounds (has_emergency_keyword desc)).
  split; [lia|]. intros Hz.
  assert (0 <= stage_points stage); [|lia].
  destruct stage as [|c rest]; [simpl; lia|].
  unfold stage_points. destruct (digit_of c) as [d|] eqn:Hc; [|lia].
  assert (d <> 0); [|apply digit_of_range in Hc; lia].
  intros ->. apply (Hz rest). f_equal.
  revert Hc. clear. destruct c as [[] [] [] [] [] [] [] []]; vm_compute;
    congruence.
Qed.

(** The result does not decrease when a factor grows and the others stay:
    the stage contribution, the temperature above 38.5, the abnormal
    heart rate, the presence of a keyword. *)
Lemma calculate_priority_fallback_monotone
    data1 stage1 temp1 heart1 desc1 data2 stage2 temp2 heart2 desc2 :
  data1 !! "cancerStage" = Some (PStr stage1) ->
  data1 !! "temp" = Some (PFloat temp1) ->
  data1 !! "heart" = Some (PInt heart1) ->
  data1 !! "description" = Some (PStr desc1) ->
  data2 !! "cancerStage" = Some (PStr stage2) ->
  data2 !! "temp" = Some (PFloat temp2) ->
  data2 !! "heart" = Some (PInt heart2) ->
  data2 !! "description" = Some (PStr desc2) ->
  stage_points stage1 <= stage_points stage2 ->
  (high_temperature temp1 = true -> high_temperature temp2 = true) ->
  (abnormal_heart heart1 = true -> abnormal_heart heart2 = true) ->
  (has_emergency_keyword desc1 = true -> has_emergency_keyword desc2 = true) ->
  exists r1 r2,
    calculate_priority_fallback float_of_str data1 = Ret r1 /\
    calculate_priority_fallback float_of_str data2 = Ret r2 /\
    r1 <= r2.
Proof.
  intros Hs1 Ht1 Hh1 Hd1 Hs2 Ht2 Hh2 Hd2 Hs Ht Hh Hd.
  rewrite (calculate_priority_fallback_typed _ _ _ _ _ Hs1 Ht1 Hh1 Hd1),
    (calculate_priority_fallback_typed _ _ _ _ _ Hs2 Ht2 Hh2 Hd2).
  do 2 eexists. split; [reflexivity|]. split; [reflexivity|].
  apply points_monotone in Ht, Hh, Hd. lia.
Qed.

(** C10: the keyword check is substring containment on the lowercased
    description, no more and no less.  [any] is true exactly when a
    keyword occurs somewhere in the lowercased description, inside a
    longer word included.  When one occurs the keyword block adds 1 and
    the function returns the priority reached before the check plus 1,
    capped at 5; when none occurs the block adds nothing and the function
    returns that priority, capped at 5. *)
Theorem keyword_check_is_substring_containment data desc :
  data !! "description" = Some (PStr desc) ->
  (any_keyword_in_description data emergency_keywords = Ret true
   <-> keyword_occurs desc) /\
  (keyword_occurs desc ->
   (forall p, keyword_block data p = (p + 1, Ret tt)) /\
   (forall p,
      mbind (stage_block data) (fun _ => vitals_block float_of_str data) 1
        = (p, Ret tt) ->
      calculate_priority_fallback float_of_str data = Ret (Z.min (p + 1) 5))) /\
  (~ keyword_occurs desc ->
   any_keyword_in_description data emergency_keywords = Ret false /\
   (forall p, keyword_block data p = (p, Ret tt)) /\
   (forall p,
      mbind (stage_block data) (fun _ => vitals_block float_of_str data) 1
        = (p, Ret tt) ->
      calculate_priority_fallback float_of_str data = Ret (Z.min p 5))).
Proof.
  intros Hd.
  pose proof (has_emergency_keyword_iff desc) as Hiff.
  fold (keyword_occurs desc) in Hiff.
  assert (Hany : any_keyword_in_description data emergency_keywords
                 = Ret (has_emergency_keyword desc))
    by apply (any_keyword_in_description_str _ _ _ Hd).
  assert (Hrun : forall p b,
             has_emergency_keyword desc = b ->
             mbind (stage_block data) (fun _ => vitals_block float_of_str data) 1
               = (p, Ret tt) ->
             calculate_priority_fallback float_of_str data
             = Ret (Z.min (p + points b) 5)).
  { intros p b Hb Hp. unfold calculate_priority_fallback.
    unfold mbind in *. destruct (stage_block data 1) as [p1 [[]|e1]].
    - destruct (vitals_block float_of_str data p1) as [p2 [[]|e2]];
        [|discriminate].
      injection Hp as ->. rewrite (keyword_block_str _ _ _ Hd), Hb.
      reflexivity.
    - discriminate. }
  split; [|split].
  - rewrite Hany, <- Hiff. split; [now intros [= ->]|now intros ->].
  - intros Hocc. apply Hiff in Hocc. split.
    + intros p. now rewrite (keyword_block_str _ _ _ Hd), Hocc.
    + intros p Hp. now rewrite (Hrun p true Hocc Hp).
  - intros Hno.
    assert (Hf : has_emergency_keyword desc = false).
    { destruct (has_emergency_keyword desc); [|reflexivity].
      destruct Hno. now apply Hiff. }
    split; [|split].
    + now rewrite Hany, Hf.
    + intros p. rewrite (keyword_block_str _ _ _ Hd), Hf. simpl.
      now rewrite Z.add_0_r.
    + intros p Hp. rewrite (Hrun p false Hf Hp). simpl.
      now rewrite Z.add_0_r.
Qed.

End Fallback.

(** "painless" and "painting" contain the keyword "pain"; "routine
    checkup" contains no keyword. *)
Lemma keyword_check_is_substring_containment_witness :
  keyword_occurs "Painless today" /\
  calculate_priority_fallback (fun _ => None)
    (request_body "2" (PFloat (FFin (37 # 1))) (PInt 80) "Painless today")
  = Ret 3 /\
  keyword_block
    (request_body "1" (PFloat (FFin (37 # 1))) (PInt 80) "was painting") 1
  = (2, Ret tt) /\
  ~ keyword_occurs "routine checkup" /\
  calculate_priority_fallback (fun _ => None)
    (request_body "2" (PFloat (FFin (37 # 1))) (PInt 80) "routine checkup")
  = Ret 2.
Proof.
  assert (H1 : keyword_occurs "Painless today")
    by (exists "pain", "", "less today"; split; [simpl; tauto|reflexivity]).
  assert (H2 : keyword_occurs "was painting")
    by (exists "pain", "was ", "ting"; split; [simpl; tauto|reflexivity]).
  assert (H3 : ~ keyword_occurs "routine checkup").
  { intros H. apply has_emergency_keyword_iff in H. discriminate H. }
  split; [exact H1|]. split; [|split; [|split; [exact H3|]]].
  - apply (proj2 (proj1 (proj2 (keyword_check_is_substring_containment
             (fun _ => None)
             (request_body "2" (PFloat (FFin (37 # 1))) (PInt 80)
                "Painless today")
             "Painless today" eq_refl)) H1) 2).
    reflexivity.
  - apply (proj1 (proj1 (proj2 (keyword_check_is_substring_containment
             (fun _ => None)
             (request_body "1" (PFloat (FFin (37 # 1))) (PInt 80)
                "was painting")
             "was painting" eq_refl)) H2) 1).
  - apply (proj2 (proj2 (proj2 (proj2 (keyword_check_is_substring_containment
             (fun _ => None)
             (request_body "2" (PFloat (FFin (37 # 1))) (PInt 80)
                "routine checkup")
             "routine checkup" eq_refl)) H3)) 2).
    reflexivity.
Defined.

Lemma int_of_str_cases s :
  (exists n, int_of_str s = Ret n) \/ int_of_str s = Raise ValueError.
Proof.
  unfold int_of_str.
  destruct (match strip s with
            | String "-" r => (true, r)
            | String "+" r => (false, r)
            | _ => (false, strip s)
            end) as [negative body].
  destruct (digits_value body 0 0 false) as [[v n]|]; [|now right].
  destruct (_ && _); [now right|]. left. eexists. reflexivity.
Qed.

(** What [validate_priority] does on every value: the clamped integer when
    [int] succeeds, 1 when [int] raises [ValueError] or [TypeError], and an
    uncaught [OverflowError] on the two float infinities. *)
Lemma validate_priority_cases v :
  (exists n, py_int v = Ret n /\
             validate_priority v = Ret (Z.max 1 (Z.min 5 n))) \/
  ((py_int v = Raise ValueError \/ py_int v = Raise TypeError) /\
   validate_priority v = Ret 1) \/
  ((exists negative, v = PFloat (FInf negative)) /\
   validate_priority v = Raise OverflowError).
Proof.
  unfold validate_priority.
  destruct v as [|b|z|[|negative|q]|s|l|d]; simpl;
    try (left; eexists; split; reflexivity);
    try (right; left; split; [tauto|reflexivity]).
  - right. right. split; [now exists negative|reflexivity].
  - destruct (int_of_str_cases s) as [[n ->]| ->]; simpl.
    + left. eexists; split; reflexivity.
    + right. left. split; [tauto|reflexivity].
Qed.

Lemma validate_priority_in_range v n :
  validate_priority v = Ret n -> 1 <= n <= 5.
Proof.
  destruct (validate_priority_cases v)
    as [(m & _ & ->)|[(_ & ->)|(_ & ->)]]; intros [= <-]; lia.
Qed.

(** C4: on a float infinity (the JSON number 1e999, or the literal
    Infinity that [json.loads] accepts) [int] raises [OverflowError]; the
    handler [except (ValueError, TypeError)] does not catch it and
    [validate_priority] returns no integer. *)
Theorem validate_priority_infinity_raises :
  validate_priority (PFloat (FInf false)) = Raise OverflowError.
Proof. reflexivity. Qed.

(** ** Properties of the text helpers of [get_ai_recommendation] *)

(** The helpers on sample inputs, with the values CPython 3.11 gives. *)

Example extract_priority_samples :
  map extract_priority_from_text
    ["Priority: 4"; "priority 9 priority:2"; "priority is 3"; "15 and 3";
     "a1 2b _3 4"; "x 5."; "12-3"; "priority7 5"; ""; "3"; "33";
     "prioritypriority2"]
  = [4; 2; 3; 3; 4; 5; 3; 5; 1; 3; 1; 2].
Proof. vm_compute. reflexivity. Qed.

Example extract_priority_latin1_samples :
  extract_priority_from_text ("Priority:" ++ String (ascii_of_N 160) "3") = 3 /\
  extract_priority_from_text ("level" ++ String (ascii_of_N 28) "2") = 2 /\
  extract_priority_from_text (String (ascii_of_N 233) "3 4") = 4 /\
  extract_priority_from_text (String (ascii_of_N 178) "3 1") = 1.
Proof. vm_compute. repeat split. Qed.

Example extract_date_samples :
  map extract_date_from_text
    ["on 2024-03-20."; "12024-03-200"; "2024-3-20 2024-13-99"; "x";
     "2024-03-2"; "99999-99-99-99"]
  = [Some "2024-03-20"; Some "2024-03-20"; Some "2024-13-99"; None; None;
     Some "9999-99-99"].
Proof. vm_compute. reflexivity. Qed.

Example json_match_samples :
  map json_match
    ["a {p: 1} b {x}"; "no"; "} {"; "{ {a} }"; "{}"; "}{}{"; "x{a{b}c}"]
  = [Some "{p: 1}"; None; None; Some "{ {a}"; Some "{}"; Some "{}";
     Some "{a{b}"].
Proof. vm_compute. reflexivity. Qed.

Example truthy_samples :
  map truthy
    [PNone; PBool false; PInt 0; PFloat (FFin 0); PFloat FNan; PStr "";
     PStr "0"; PList []; PList [PInt 0]; PDict []]
  = [false; false; false; false; true; false; true; false; true; false].
Proof. reflexivity. Qed.

Lemma append_empty (s : string) : "" ++ s = s.
Proof. reflexivity. Qed.

(** [re_search] returns the match at the leftmost position that has one. *)
Lemma re_search_some {A} (match_at : string -> option A) s m :
  re_search match_at s = Some m ->
  exists pre suf,
    s = pre ++ suf /\ match_at suf = Some m /\
    forall pre1 suf1,
      s = pre1 ++ suf1 -> (String.length pre1 < String.length pre)%nat ->
      match_at suf1 = None.
Proof.
  induction s as [|c s IH]; simpl.
  - destruct (match_at "") eqn:H0; [|discriminate]. intros [= ->].
    exists "", "". repeat split; [exact H0|]. simpl. lia.
  - destruct (match_at (String c s)) eqn:H0.
    + intros [= ->]. exists "", (String c s). repeat split; [exact H0|].
      simpl. lia.
    + intros H. destruct (IH H) as (pre & suf & -> & Hm & Hleft).
      exists (String c pre), suf. rewrite append_cons.
      repeat split; [exact Hm|].
      intros [|c1 pre1] suf1 Heq Hlen.
      * rewrite append_empty in Heq. subst suf1. rewrite <- append_cons. exact H0.
      * rewrite append_cons in Heq. injection Heq as -> Heq.
        apply (Hleft pre1 suf1 Heq). simpl in Hlen. lia.
Qed.

Lemma re_search_here {A} (match_at : string -> option A) s m :
  match_at s = Some m -> re_search match_at s = Some m.
Proof. destruct s; simpl; now intros ->. Qed.

Lemma re_search_none {A} (match_at : string -> option A) s :
  re_search match_at s = None <->
  forall pre suf, s = pre ++ suf -> match_at suf = None.
Proof.
  induction s as [|c s IH]; simpl.
  - destruct (match_at "") eqn:H0; split.
    + discriminate.
    + intros H. specialize (H "" "" eq_refl). congruence.
    + intros _ [|c pre] suf Heq; [|discriminate Heq].
      rewrite append_empty in Heq. now subst suf.
    + reflexivity.
  - destruct (match_at (String c s)) eqn:H0; split.
    + discriminate.
    + intros H. specialize (H "" (String c s) eq_refl). congruence.
    + intros H [|c1 pre] suf Heq.
      * rewrite append_empty in Heq. now subst suf.
      * rewrite append_cons in Heq. injection Heq as -> Heq.
        apply (proj1 IH H pre suf Heq).
    + intros H. apply IH. intros pre suf Heq.
      apply (H (String c pre) suf). rewrite append_cons. now rewrite Heq.
Qed.

Lemma digit_in_bounds lo hi c d : digit_in lo hi c = Some d -> lo <= d <= hi.
Proof.
  unfold digit_in. destruct (digit_of c) as [x|]; [|discriminate].
  destruct (Z.leb_spec lo x), (Z.leb_spec x hi); simpl; try discriminate.
  intros [= <-]. lia.
Qed.

Lemma labelled_priority_at_bounds s d :
  labelled_priority_at s = Some d -> 1 <= d <= 5.
Proof.
  unfold labelled_priority_at.
  destruct (match_classes priority_classes s) as [[m r]|]; [|discriminate].
  destruct (skip_separators r) as [|c r']; [discriminate|].
  apply digit_in_bounds.
Qed.

Lemma lone_digit_bounds prev s d : lone_digit prev s = Some d -> 1 <= d <= 5.
Proof.
  revert prev. induction s as [|c s IH]; intros prev; simpl; [discriminate|].
  destruct (digit_in 1 5 c) as [x|] eqn:Hc; [|apply IH].
  destruct (negb prev && negb (next_is_word s)); [|apply IH].
  intros [= <-]. now apply digit_in_bounds with c.
Qed.

Lemma extract_priority_from_text_range text :
  1 <= extract_priority_from_text text <= 5.
Proof.
  unfold extract_priority_from_text.
  destruct (re_search labelled_priority_at text) as [d|] eqn:H1.
  - apply re_search_some in H1 as (pre & suf & _ & H & _).
    now apply labelled_priority_at_bounds with suf.
  - destruct (lone_digit false text) as [d|] eqn:H2; [|lia].
    now apply lone_digit_bounds with false text.
Qed.

(** X1: whatever the text, [extract_priority_from_text] returns an integer
    from 1 to 5. *)
Theorem extract_priority_from_text_bounds text :
  1 <= extract_priority_from_text text <= 5.
Proof. apply extract_priority_from_text_range. Qed.

Lemma all_chars_app p a b :
  all_chars p (a ++ b) = all_chars p a && all_chars p b.
Proof.
  induction a as [|c a IH]; [reflexivity|].
  rewrite append_cons. simpl. rewrite IH. now rewrite andb_assoc.
Qed.

Lemma match_classes_iff classes s m r :
  match_classes classes s = Some (m, r) <->
  s = m ++ r /\ matches_exactly classes m = true.
Proof.
  revert s m r. induction classes as [|class classes IH]; intros s m r; simpl.
  - split.
    + intros [= <- <-]. split; reflexivity.
    + intros [-> H]. destruct m; [reflexivity|discriminate].
  - destruct s as [|c s].
    + split; [discriminate|]. intros [H1 H2].
      destruct m; [discriminate|]. rewrite append_cons in H1. discriminate.
    + destruct (class c) eqn:Hc.
      * destruct (match_classes classes s) as [[m' r']|] eqn:Hm.
        -- apply IH in Hm as [-> Hm]. split.
           ++ intros [= <- <-]. rewrite append_cons. simpl.
              now rewrite Hc, Hm.
           ++ intros [H1 H2]. destruct m as [|c1 m]; [discriminate|].
              rewrite append_cons in H1. injection H1 as <- H1.
              apply andb_true_iff in H2 as [_ H2].
              assert (H : match_classes classes (m' ++ r') = Some (m, r))
                by (apply IH; split; assumption).
              assert (H' : match_classes classes (m' ++ r') = Some (m', r'))
                by (apply IH; split; [reflexivity|assumption]).
              congruence.
        -- split; [discriminate|]. intros [H1 H2].
           destruct m as [|c1 m]; [discriminate|].
           rewrite append_cons in H1. injection H1 as <- H1.
           apply andb_true_iff in H2 as [_ H2].
           assert (H : match_classes classes s = Some (m, r))
             by (apply IH; split; assumption).
           congruence.
      * split; [discriminate|]. intros [H1 H2].
        destruct m as [|c1 m]; [discriminate|].
        rewrite append_cons in H1. injection H1 as <- H1.
        apply andb_true_iff in H2 as [H2 _]. congruence.
Qed.

Lemma date_shaped_classes s : date_shaped s = matches_exactly date_classes s.
Proof.
  unfold date_shaped, date_classes, is_char.
  do 10 (destruct s as [|? s]; [simpl; rewrite ?andb_false_r; reflexivity|]).
  destruct s as [|? s]; simpl.
  - rewrite andb_true_r, <- !andb_assoc. reflexivity.
  - now rewrite !andb_false_r.
Qed.

Lemma date_at_iff s m :
  date_at s = Some m <-> date_shaped m = true /\ exists suf, s = m ++ suf.
Proof.
  unfold date_at. rewrite date_shaped_classes. split.
  - destruct (match_classes date_classes s) as [[m' r]|] eqn:H; [|discriminate].
    intros [= <-]. apply match_classes_iff in H as [-> H].
    split; [exact H|]. now exists r.
  - intros [H [suf ->]].
    assert (Hm : match_classes date_classes (m ++ suf) = Some (m, suf))
      by (apply match_classes_iff; split; [reflexivity|exact H]).
    now rewrite Hm.
Qed.

(** X2: a date returned by [extract_date_from_text] is a substring of the
    text made of four digits, two digits and two digits separated by
    hyphens (ten characters), and it is the leftmost such substring. *)
Theorem extract_date_from_text_leftmost text s :
  extract_date_from_text text = Some s ->
  date_shaped s = true /\
  exists pre suf,
    text = pre ++ s ++ suf /\
    forall pre1 s1 suf1,
      text = pre1 ++ s1 ++ suf1 ->
      (String.length pre1 < String.length pre)%nat ->
      date_shaped s1 = false.
Proof.
  unfold extract_date_from_text. intros H.
  apply re_search_some in H as (pre & tail & -> & Hat & Hleft).
  apply date_at_iff in Hat as [Hs [suf ->]]. split; [exact Hs|].
  exists pre, suf. split; [reflexivity|].
  intros pre1 s1 suf1 Heq Hlen.
  specialize (Hleft pre1 (s1 ++ suf1) Heq Hlen).
  destruct (date_shaped s1) eqn:H1; [|reflexivity].
  assert (date_at (s1 ++ suf1) = Some s1)
    by (apply date_at_iff; split; [exact H1|now exists suf1]).
  congruence.
Qed.

(** X3: [extract_date_from_text] returns [None] exactly when the text has
    no date-shaped substring. *)
Theorem extract_date_from_text_none_iff text :
  extract_date_from_text text = None <->
  forall pre s suf, text = pre ++ s ++ suf -> date_shaped s = false.
Proof.
  unfold extract_date_from_text. rewrite re_search_none. split.
  - intros H pre s suf Heq. specialize (H pre (s ++ suf) Heq).
    destruct (date_shaped s) eqn:Hs; [|reflexivity].
    assert (date_at (s ++ suf) = Some s)
      by (apply date_at_iff; split; [exact Hs|now exists suf]).
    congruence.
  - intros H pre tail Heq.
    destruct (date_at tail) as [m|] eqn:Hat; [|reflexivity].
    apply date_at_iff in Hat as [Hs [suf ->]].
    rewrite (H pre m suf Heq) in Hs. discriminate.
Qed.

Lemma lower_priority_label label :
  lower label = "priority" -> matches_exactly priority_classes label = true.
Proof.
  unfold priority_classes, letter. intros H.
  do 8 (destruct label as [|? label]; [simpl in H; discriminate H|]).
  destruct label; [|simpl in H; discriminate H].
  simpl in H. injection H as H1 H2 H3 H4 H5 H6 H7 H8.
  simpl. rewrite H1, H2, H3, H4, H5, H6, H7, H8. reflexivity.
Qed.

Lemma digit_not_separator c d : digit_in 1 5 c = Some d -> separator c = false.
Proof.
  destruct c as [[] [] [] [] [] [] [] []]; vm_compute;
    first [discriminate | reflexivity].
Qed.

Lemma skip_separators_app seps tail :
  all_chars separator seps = true ->
  skip_separators (seps ++ tail) = skip_separators tail.
Proof.
  induction seps as [|c seps IH]; [reflexivity|].
  rewrite append_cons. simpl. fold (separator c).
  intros H. apply andb_true_iff in H as [-> H]. now apply IH.
Qed.

Lemma labelled_priority_at_label label seps c rest d :
  lower label = "priority" ->
  all_chars separator seps = true ->
  digit_in 1 5 c = Some d ->
  labelled_priority_at (label ++ seps ++ String c rest) = Some d.
Proof.
  intros Hl Hs Hc. unfold labelled_priority_at.
  assert (Hm : match_classes priority_classes (label ++ seps ++ String c rest)
               = Some (label, seps ++ String c rest)).
  { apply match_classes_iff. split; [reflexivity|].
    now apply lower_priority_label. }
  rewrite Hm, (skip_separators_app _ _ Hs). simpl. fold (separator c).
  now rewrite (digit_not_separator _ _ Hc).
Qed.

(** X4: a labelled priority wins over everything else.  When the text
    holds the word "priority" in any casing, then colons and white space
    only, then a digit from 1 to 5, and no letter p occurs before that
    word, the value returned is that digit, whatever stands before and
    after (other digits included). *)
Theorem labelled_priority_wins pre label seps c rest d :
  all_chars (fun x => negb (letter "p" x)) pre = true ->
  lower label = "priority" ->
  all_chars separator seps = true ->
  digit_in 1 5 c = Some d ->
  extract_priority_from_text (pre ++ label ++ seps ++ String c rest) = d.
Proof.
  intros Hpre Hl Hs Hc. unfold extract_priority_from_text.
  assert (H : re_search labelled_priority_at
                (pre ++ label ++ seps ++ String c rest) = Some d).
  { induction pre as [|x pre IH].
    - rewrite append_empty. apply re_search_here.
      now apply labelled_priority_at_label.
    - simpl in Hpre. apply andb_true_iff in Hpre as [Hx Hpre].
      rewrite append_cons. simpl.
      apply negb_true_iff in Hx.
      unfold labelled_priority_at at 1. simpl. rewrite Hx.
      now apply IH. }
  now rewrite H.
Qed.

Lemma labelled_priority_wins_witness :
  all_chars (fun x => negb (letter "p" x)) "Score 3 of 5. " = true /\
  lower "PRIORITY" = "priority" /\
  all_chars separator " :  " = true /\
  digit_in 1 5 "4" = Some 4 /\
  extract_priority_from_text "Score 3 of 5. PRIORITY :  4 (high), not 2" = 4.
Proof.
  repeat (split; [reflexivity|]).
  apply (labelled_priority_wins "Score 3 of 5. " "PRIORITY" " :  " "4"
           " (high), not 2" 4); reflexivity.
Defined.

Lemma match_classes_suffix classes s m r :
  match_classes classes s = Some (m, r) -> s = m ++ r.
Proof. intros H. now apply match_classes_iff in H. Qed.

Lemma skip_separators_all_chars p s :
  all_chars p s = true -> all_chars p (skip_separators s) = true.
Proof.
  induction s as [|c s IH]; [reflexivity|]. simpl.
  destruct (is_char ":" c || re_space c); [|intros H; exact H].
  intros H. apply andb_true_iff in H as [_ H]. now apply IH.
Qed.

Lemma labelled_priority_at_no_digit s :
  all_chars not_priority_digit s = true -> labelled_priority_at s = None.
Proof.
  intros H. unfold labelled_priority_at.
  destruct (match_classes priority_classes s) as [[m r]|] eqn:Hm;
    [|reflexivity].
  apply match_classes_suffix in Hm. subst s.
  rewrite all_chars_app in H. apply andb_true_iff in H as [_ H].
  apply skip_separators_all_chars in H.
  destruct (skip_separators r) as [|c r']; [reflexivity|].
  simpl in H. apply andb_true_iff in H as [H _].
  unfold not_priority_digit in H. now destruct (digit_in 1 5 c).
Qed.

(** X5: a text in which none of the digits 1 to 5 occurs gives the lowest
    priority, 1; the empty text is one. *)
Theorem extract_priority_from_text_default text :
  all_chars not_priority_digit text = true ->
  extract_priority_from_text text = 1.
Proof.
  intros H. unfold extract_priority_from_text.
  assert (H1 : re_search labelled_priority_at text = None).
  { induction text as [|c text IH]; simpl.
    - reflexivity.
    - rewrite (labelled_priority_at_no_digit _ H).
      simpl in H. apply andb_true_iff in H as [_ H]. now apply IH. }
  assert (H2 : forall prev, lone_digit prev text = None).
  { clear H1. induction text as [|c text IH]; intros prev; [reflexivity|].
    simpl in *. apply andb_true_iff in H as [Hc H].
    unfold not_priority_digit in Hc.
    destruct (digit_in 1 5 c); [discriminate|]. now apply IH. }
  now rewrite H1, H2.
Qed.

Lemma extract_priority_from_text_default_witness :
  all_chars not_priority_digit "urgent, see 06.07. at 09:00" = true /\
  extract_priority_from_text "urgent, see 06.07. at 09:00" = 1.
Proof.
  split; [reflexivity|].
  apply (extract_priority_from_text_default "urgent, see 06.07. at 09:00").
  reflexivity.
Defined.

(** ** Properties of the JSON object search *)

Lemma up_to_closing_brace_some s m :
  up_to_closing_brace s = Some m ->
  exists body suf,
    s = body ++ String "}" suf /\ m = body ++ "}" /\
    all_chars not_closing body = true.
Proof.
  revert m. induction s as [|c s IH]; intros m; simpl; [discriminate|].
  destruct (is_char "}" c) eqn:Hc.
  - intros [= <-]. apply Ascii.eqb_eq in Hc. subst c.
    exists "", s. repeat split.
  - destruct (up_to_closing_brace s) as [m'|]; [|discriminate].
    intros [= <-]. destruct (IH m' eq_refl) as (body & suf & -> & -> & Hb).
    exists (String c body), suf. rewrite !append_cons. repeat split.
    simpl. unfold not_closing at 1. now rewrite Hc.
Qed.

Lemma up_to_closing_brace_none s :
  up_to_closing_brace s = None <-> all_chars not_closing s = true.
Proof.
  induction s as [|c s IH]; simpl; [tauto|].
  unfold not_closing at 1. destruct (is_char "}" c); simpl.
  - split; discriminate.
  - rewrite <- IH. destruct (up_to_closing_brace s); split;
      first [discriminate | reflexivity].
Qed.

Lemma json_match_no_closing s :
  all_chars not_closing s = true -> json_match s = None.
Proof.
  unfold json_match. induction s as [|c s IH]; [reflexivity|].
  simpl. intros H. apply andb_true_iff in H as [_ H].
  rewrite (proj2 (up_to_closing_brace_none s) H).
  destruct (is_char "{" c); now apply IH.
Qed.

(** X6: the text handed to [json.loads] is the span from the first opening
    brace of the answer to the first closing brace after it: no opening
    brace stands before it and no other closing brace inside it.  An
    object that contains an object is therefore cut at the inner closing
    brace. *)
Theorem json_match_first_braces text m :
  json_match text = Some m ->
  exists pre body suf,
    text = pre ++ String "{" (body ++ String "}" suf) /\
    m = String "{" (body ++ "}") /\
    all_chars not_opening pre = true /\
    all_chars not_closing body = true.
Proof.
  unfold json_match. induction text as [|c text IH]; simpl; [discriminate|].
  destruct (is_char "{" c) eqn:Hc.
  - destruct (up_to_closing_brace text) as [m'|] eqn:Hu.
    + intros [= <-]. apply Ascii.eqb_eq in Hc. subst c.
      apply up_to_closing_brace_some in Hu as (body & suf & -> & -> & Hb).
      exists "", body, suf. repeat split. exact Hb.
    + intros H. apply up_to_closing_brace_none in Hu.
      apply json_match_no_closing in Hu. unfold json_match in Hu. congruence.
  - intros H. destruct (IH H) as (pre & body & suf & -> & -> & Hp & Hb).
    exists (String c pre), body, suf. rewrite append_cons.
    repeat split; [|exact Hb]. simpl. unfold not_opening at 1.
    now rewrite Hc.
Qed.

Lemma json_match_first_braces_witness :
  json_match "Answer: {'a': {'b': 1}, 'c': 2} end" = Some "{'a': {'b': 1}" /\
  exists pre body suf,
    "Answer: {'a': {'b': 1}, 'c': 2} end"
      = pre ++ String "{" (body ++ String "}" suf) /\
    "{'a': {'b': 1}" = String "{" (body ++ "}") /\
    all_chars not_opening pre = true /\
    all_chars not_closing body = true.
Proof.
  split; [reflexivity|].
  apply (json_match_first_braces "Answer: {'a': {'b': 1}, 'c': 2} end").
  reflexivity.
Defined.

(** ** The extracted date and [strptime] *)

Lemma re_digit_value c :
  re_digit c = true -> digit_of c = Some (digit_value c) /\ 0 <= digit_value c <= 9.
Proof.
  unfold re_digit, digit_value. destruct (digit_of c) as [d|] eqn:H;
    [|discriminate].
  intros _. split; [reflexivity|]. now apply digit_of_range with c.
Qed.

Lemma hyphen_digit c d r : digit_of c = Some d -> hyphen (String c r) = None.
Proof.
  destruct c as [[] [] [] [] [] [] [] []]; vm_compute;
    first [discriminate | reflexivity].
Qed.

Lemma hyphen_hyphen r : hyphen (String "-" r) = Some r.
Proof. reflexivity. Qed.

Lemma space_digit_digit c d r : digit_of c = Some d -> space_digit 1 9 (String c r) = None.
Proof.
  destruct c as [[] [] [] [] [] [] [] []]; vm_compute;
    first [discriminate | reflexivity].
Qed.

Ltac digit_cases a :=
  let H := fresh in
  assert (H : a = 0 \/ a = 1 \/ a = 2 \/ a = 3 \/ a = 4 \/ a = 5 \/ a = 6
              \/ a = 7 \/ a = 8 \/ a = 9) by lia;
  repeat (destruct H as [H|H]); subst a.

Lemma days_in_month_le_31 y m : days_in_month y m <= 31.
Proof.
  unfold days_in_month.
  repeat match goal with
         | |- context [match ?x with _ => _ end] => destruct x
         end; lia.
Qed.

Lemma make_date_out_of_range y m d :
  ~ (1 <= m <= 12 /\ 1 <= d <= 31) -> make_date y m d = Raise ValueError.
Proof.
  intros H. unfold make_date.
  destruct (_ && _) eqn:Hc; [|reflexivity].
  rewrite !andb_true_iff, !Z.leb_le in Hc.
  pose proof (days_in_month_le_31 y m). lia.
Qed.

(** The month of a ten-character date: both digits are read, and the
    pattern goes on only for 01 to 12. *)
Lemma month_two_digits {A} c1 c2 a b r (k : Z -> string -> option A) :
  digit_of c1 = Some a -> 0 <= a <= 9 ->
  digit_of c2 = Some b -> 0 <= b <= 9 ->
  first_match month_alternatives (String c1 (String c2 (String "-" r)))
    (fun m r => match hyphen r with Some r => k m r | None => None end)
  = if (1 <=? 10 * a + b) && (10 * a + b <=? 12) then k (10 * a + b) r
    else None.
Proof.
  intros H1 Ha H2 Hb.
  cbv [first_match month_alternatives two_digits one_digit digit_in].
  rewrite H1, H2.
  digit_cases a; digit_cases b; cbn -[hyphen];
    rewrite ?(hyphen_digit c2 _ _ H2), ?hyphen_hyphen; cbn;
    try reflexivity; destruct (k _ r); reflexivity.
Qed.

(** The day of a ten-character date: both digits are read for 01 to 31;
    otherwise at most the first digit is, and the second is left over. *)
Lemma day_two_digits c1 c2 a b (y m : Z) :
  digit_of c1 = Some a -> 0 <= a <= 9 ->
  digit_of c2 = Some b -> 0 <= b <= 9 ->
  first_match day_alternatives (String c1 (String c2 ""))
    (fun d r => Some (y, m, d, r))
  = if (1 <=? 10 * a + b) && (10 * a + b <=? 31)
    then Some (y, m, 10 * a + b, "")
    else if 1 <=? a then Some (y, m, a, String c2 "") else None.
Proof.
  intros H1 Ha H2 Hb.
  cbv [first_match day_alternatives two_digits one_digit digit_in].
  rewrite H1, H2, (space_digit_digit c1 a _ H1).
  digit_cases a; digit_cases b; reflexivity.
Qed.

Lemma date_shaped_strptime s :
  date_shaped s = true ->
  strptime s
  = let '(y, m, d) := date_fields s in
    let! day := make_date y m d in Ret (midnight_plus_hours day 0).
Proof.
  unfold date_shaped.
  do 10 (destruct s as [|? s]; [discriminate|]).
  destruct s; [|discriminate].
  rewrite !andb_true_iff.
  intros [[[[[[[[[Hy1 Hy2] Hy3] Hy4] Hh1] Hm1] Hm2] Hh2] Hd1] Hd2].
  apply Ascii.eqb_eq in Hh1, Hh2. subst.
  apply re_digit_value in Hy1 as [Hy1 _], Hy2 as [Hy2 _], Hy3 as [Hy3 _],
    Hy4 as [Hy4 _], Hm1 as [Hm1 Rm1], Hm2 as [Hm2 Rm2], Hd1 as [Hd1 Rd1],
    Hd2 as [Hd2 Rd2].
  unfold date_fields, strptime, match_ymd, four_digits.
  rewrite Hy1, Hy2, Hy3, Hy4, hyphen_hyphen.
  rewrite (month_two_digits _ _ _ _ _ _ Hm1 Rm1 Hm2 Rm2).
  set (y := 1000 * digit_value a + 100 * digit_value a0
            + 10 * digit_value a1 + digit_value a2).
  set (m := 10 * digit_value a4 + digit_value a5).
  set (d := 10 * digit_value a7 + digit_value a8).
  destruct ((1 <=? m) && (m <=? 12)) eqn:Hm.
  - rewrite (day_two_digits _ _ _ _ y m Hd1 Rd1 Hd2 Rd2). fold d.
    destruct ((1 <=? d) && (d <=? 31)) eqn:Hd; [reflexivity|].
    rewrite make_date_out_of_range.
    + destruct (1 <=? digit_value a7); reflexivity.
    + rewrite andb_false_iff, !Z.leb_gt in Hd. lia.
  - rewrite make_date_out_of_range; [reflexivity|].
    rewrite andb_false_iff, !Z.leb_gt in Hm. lia.
Qed.

Lemma extract_date_from_text_shaped text s :
  extract_date_from_text text = Some s -> date_shaped s = true.
Proof.
  unfold extract_date_from_text. intros H.
  apply re_search_some in H as (pre & tail & _ & Hat & _).
  now apply date_at_iff in Hat.
Qed.

(** X7: in a text whose characters all have code points 0 to 255 (where
    the digits of [\d] are 0-9 alone), a date found by
    [extract_date_from_text] has the layout that [strptime] reads with
    "%Y-%m-%d": [strptime] returns the date of its three numbers at
    midnight when they are a calendar date, and raises [ValueError] when
    they are not (year 0, month 00 or above 12, day 00 or beyond the
    month).  Texts with digits of other scripts are outside this
    statement. *)
Theorem extracted_date_strptime text s :
  extract_date_from_text text = Some s ->
  strptime s
  = let '(y, m, d) := date_fields s in
    let! day := make_date y m d in Ret (midnight_plus_hours day 0).
Proof.
  intros H. apply date_shaped_strptime.
  now apply extract_date_from_text_shaped with text.
Qed.

Lemma extracted_date_strptime_witness :
  extract_date_from_text "See you on 2024-03-20." = Some "2024-03-20" /\
  strptime "2024-03-20" = Ret (at_time 2024 3 20 0 0) /\
  extract_date_from_text "Due 2024-13-45" = Some "2024-13-45" /\
  strptime "2024-13-45" = Raise ValueError.
Proof.
  split; [reflexivity|]. split.
  - rewrite (extracted_date_strptime "See you on 2024-03-20." "2024-03-20"
               eq_refl).
    reflexivity.
  - split; [reflexivity|].
    rewrite (extracted_date_strptime "Due 2024-13-45" "2024-13-45" eq_refl).
    reflexivity.
Defined.

(** ** Properties of [get_ai_recommendation] *)


Section AiRecommendationProperties.

Variable json_loads : string -> json_result.

Lemma recommendation_of_text_range response_text r :
  recommendation_of_text json_loads response_text = Some r ->
  1 <= rec_priority r <= 5.
Proof.
  unfold recommendation_of_text.
  assert (Htext : Some (extract_from_text response_text) = Some r ->
                  1 <= rec_priority r <= 5).
  { intros [= <-]. apply extract_priority_from_text_range. }
  destruct (json_match response_text) as [m|]; [|exact Htext].
  destruct (json_loads m) as [ai_data| |]; [|exact Htext|discriminate].
  destruct (dict_get ai_data "priority" PNone) as [p|]; [|discriminate].
  simpl. destruct (validate_priority p) as [n|] eqn:Hn; [|discriminate].
  simpl. destruct (dict_get ai_data "appointment" PNone); [|discriminate].
  intros [= <-]. simpl. now apply validate_priority_in_range with p.
Qed.

Lemma get_ai_recommendation_text response_data r :
  get_ai_recommendation json_loads response_data = Some r ->
  exists text,
    candidate_text response_data = Ret (PStr text) /\
    recommendation_of_text json_loads (rstrip_spaces (lstrip_spaces text))
      = Some r.
Proof.
  unfold get_ai_recommendation.
  destruct (attempt (unexpected_structure response_data)) as [[|]|];
    try discriminate.
  destruct (candidate_text response_data) as [t|]; [|discriminate].
  destruct t; try discriminate. simpl. intros H. now exists s.
Qed.

(** X8: whenever [get_ai_recommendation] returns, the priority it returns
    is an integer from 1 to 5, whether it was read from a JSON object
    (any value, any type) or extracted from the text. *)
Theorem get_ai_recommendation_priority_bounds response_data r :
  get_ai_recommendation json_loads response_data = Some r ->
  1 <= rec_priority r <= 5.
Proof.
  intros H. apply get_ai_recommendation_text in H as (text & _ & H).
  now apply recommendation_of_text_range in H.
Qed.

(** X9: [get_ai_recommendation] returns only for an answer in which
    [candidates[0].content.parts[0].text] exists and is a string, and what
    it returns is computed from that string with the white space at both
    ends removed; on every other answer it raises. *)
Theorem get_ai_recommendation_needs_text response_data r :
  get_ai_recommendation json_loads response_data = Some r ->
  exists text,
    candidate_text response_data = Ret (PStr text) /\
    recommendation_of_text json_loads (rstrip_spaces (lstrip_spaces text))
      = Some r.
Proof. apply get_ai_recommendation_text. Qed.


(** The two ways out of the braces that are no failure: a decoding error
    and no braces at all both give the values extracted from the text. *)
Lemma recommendation_of_text_extracts response_text :
  json_match response_text = None \/
  (exists m, json_match response_text = Some m /\ json_loads m = DecodeError) ->
  recommendation_of_text json_loads response_text
  = Some (extract_from_text response_text).
Proof.
  unfold recommendation_of_text. intros [-> | (m & -> & ->)]; reflexivity.
Qed.

End AiRecommendationProperties.

Lemma get_ai_recommendation_priority_bounds_witness :
  get_ai_recommendation (fun _ => DecodeError)
    (api_answer (PStr "  Priority: 4, come on 2024-03-20  "))
  = Some (mkRecommendation 4 (PStr "2024-03-20")) /\ 1 <= 4 <= 5.
Proof.
  split; [reflexivity|].
  apply (get_ai_recommendation_priority_bounds (fun _ => DecodeError)
           (api_answer (PStr "  Priority: 4, come on 2024-03-20  "))
           (mkRecommendation 4 (PStr "2024-03-20"))).
  reflexivity.
Defined.

Lemma get_ai_recommendation_needs_text_witness :
  exists text,
    candidate_text (api_answer (PStr "  level 2  ")) = Ret (PStr text) /\
    recommendation_of_text (fun _ => DecodeError)
      (rstrip_spaces (lstrip_spaces text))
      = Some (mkRecommendation 2 PNone).
Proof.
  apply (get_ai_recommendation_needs_text (fun _ => DecodeError)
           (api_answer (PStr "  level 2  "))).
  reflexivity.
Defined.


(** ** Further properties of [calculate_priority_fallback] *)

Lemma any_keyword_in_description_agree data1 data2 keywords :
  data1 !! "description" = data2 !! "description" ->
  any_keyword_in_description data1 keywords
  = any_keyword_in_description data2 keywords.
Proof.
  intros H. induction keywords as [|k ks IH]; [reflexivity|].
  cbn [any_keyword_in_description]. unfold getitem. now rewrite H, IH.
Qed.

Lemma any_keyword_in_description_raises data keywords e :
  any_keyword_in_description data keywords = Raise e ->
  (e = KeyError /\ data !! "description" = None) \/
  (e = AttributeError /\
   exists v, data !! "description" = Some v /\ forall s, v <> PStr s).
Proof.
  induction keywords as [|k ks IH]; [discriminate|].
  cbn [any_keyword_in_description]. unfold getitem.
  destruct (data !! "description") as [v|] eqn:Hd.
  - destruct v as [|b|z|f|s|l|d]; simpl;
      try (intros [= <-]; right; split; [reflexivity|];
           eexists; split; [reflexivity|]; discriminate).
    destruct (contains k (lower s)); [discriminate|].
    intros H. destruct (IH H) as [[_ H1]|(_ & v & H1 & H2)];
      [discriminate|].
    injection H1 as <-. now destruct (H2 s).
  - simpl. intros [= <-]. now left.
Qed.

Lemma py_int_raises v e :
  py_int v = Raise e -> e = ValueError \/ e = TypeError \/ e = OverflowError.
Proof.
  destruct v as [|b|z|[|n|q]|s|l|d]; simpl; try discriminate;
    try (intros [= <-]; tauto).
  destruct (int_of_str_cases s) as [[n ->]| ->]; [discriminate|].
  intros [= <-]. tauto.
Qed.

Section FallbackProperties.

Variable float_of_str : string -> option pyfloat.

Lemma py_float_raises v e :
  py_float float_of_str v = Raise e ->
  e = ValueError \/ e = TypeError \/ e = OverflowError.
Proof.
  destruct v as [|b|z|f|s|l|d]; simpl; try discriminate;
    try (intros [= <-]; tauto).
  - unfold float_of_int. destruct (_ <=? _); [intros [= <-]; tauto|].
    destruct (_ <=? _); discriminate.
  - destruct (float_of_str s); [discriminate|]. intros [= <-]. tauto.
Qed.

(** X11: the fallback reads four fields only.  Two request bodies that
    agree on 'cancerStage', 'temp', 'heart' and 'description' get the same
    result (the same priority or the same exception), whatever name,
    email, age, therapy type and blood pressure say. *)
Theorem calculate_priority_fallback_reads_four_fields data1 data2 :
  data1 !! "cancerStage" = data2 !! "cancerStage" ->
  data1 !! "temp" = data2 !! "temp" ->
  data1 !! "heart" = data2 !! "heart" ->
  data1 !! "description" = data2 !! "description" ->
  calculate_priority_fallback float_of_str data1
  = calculate_priority_fallback float_of_str data2.
Proof.
  intros Hs Ht Hh Hd.
  unfold calculate_priority_fallback, stage_block, vitals_block,
    keyword_block, getitem.
  now rewrite Hs, Ht, Hh, (any_keyword_in_description_agree _ _ _ Hd).
Qed.

(** The function, block after block. *)
Lemma calculate_priority_fallback_run data :
  calculate_priority_fallback float_of_str data
  = match stage_block data 1 with
    | (_, Raise e) => Raise e
    | (p1, Ret _) =>
        match vitals_block float_of_str data p1 with
        | (_, Raise e) => Raise e
        | (p2, Ret _) =>
            match keyword_block data p2 with
            | (_, Raise e) => Raise e
            | (p3, Ret _) => Ret (Z.min p3 5)
            end
        end
    end.
Proof.
  unfold calculate_priority_fallback, mbind.
  destruct (stage_block data 1) as [p1 [u1|e1]]; [|reflexivity].
  destruct (vitals_block float_of_str data p1) as [p2 [u2|e2]]; [|reflexivity].
  destruct (keyword_block data p2) as [p3 [u3|e3]]; reflexivity.
Qed.

Lemma calculate_priority_fallback_le_5 data p :
  calculate_priority_fallback float_of_str data = Ret p -> p <= 5.
Proof.
  rewrite calculate_priority_fallback_run.
  destruct (stage_block data 1) as [p1 [u1|e1]]; [|discriminate].
  destruct (vitals_block float_of_str data p1) as [p2 [u2|e2]]; [|discriminate].
  destruct (keyword_block data p2) as [p3 [u3|e3]]; [|discriminate].
  intros [= <-]. lia.
Qed.

Lemma index0_raises v e :
  index0 v = Raise e ->
  e = IndexError \/ e = TypeError \/ (e = KeyError /\ exists d, v = PDict d).
Proof.
  destruct v as [|b|z|f|[|c s]|[|x l]|d]; simpl; try discriminate;
    intros [= <-]; try tauto.
  right. right. split; [reflexivity|]. now exists d.
Qed.

Lemma stage_block_raises data p p' e :
  stage_block data p = (p', Raise e) ->
  (e = KeyError /\
   (data !! "cancerStage" = None \/
    exists d, data !! "cancerStage" = Some (PDict d))) \/
  e = OverflowError.
Proof.
  unfold stage_block, try_pass, mbind, eval, getitem.
  destruct (data !! "cancerStage") as [v|] eqn:Hv; simpl.
  - destruct (index0 v) as [c|e0] eqn:Hi; simpl.
    + destruct (py_int c) as [n|e1] eqn:Hc; simpl; [discriminate|].
      apply py_int_raises in Hc as [-> | [-> | ->]]; simpl; try discriminate.
      intros [= _ <-]. now right.
    + apply index0_raises in Hi as [-> | [-> | [-> [d ->]]]]; simpl;
        try discriminate.
      intros [= _ <-]. left. split; [reflexivity|]. right. now exists d.
  - intros [= _ <-]. left. split; [reflexivity|]. now left.
Qed.

Lemma vitals_block_raises data p p' e :
  vitals_block float_of_str data p = (p', Raise e) ->
  (e = KeyError /\ (data !! "temp" = None \/ data !! "heart" = None)) \/
  e = OverflowError.
Proof.
  unfold vitals_block, try_pass, mbind, eval, getitem.
  destruct (data !! "temp") as [t|] eqn:Ht; simpl.
  - destruct (py_float float_of_str t) as [f|e0] eqn:Hf; simpl.
    + destruct (float_gt f (77 # 2)); simpl;
        (destruct (data !! "heart") as [h|] eqn:Hh; simpl;
         [destruct (py_int h) as [n|e1] eqn:Hn; simpl;
          [destruct ((100 <? n) || (n <? 60)); discriminate|
           apply py_int_raises in Hn as [-> | [-> | ->]]; simpl;
           try discriminate; intros [= _ <-]; now right]
         |intros [= _ <-]; left; split; [reflexivity|now right]]).
    + apply py_float_raises in Hf as [-> | [-> | ->]]; simpl; try discriminate.
      intros [= _ <-]. now right.
  - intros [= _ <-]. left. split; [reflexivity|now left].
Qed.

End FallbackProperties.

Lemma calculate_priority_fallback_reads_four_fields_witness :
  calculate_priority_fallback (fun _ => None)
    (request_body "3" (PFloat (FFin (39 # 1))) (PInt 80) "cough")
  = calculate_priority_fallback (fun _ => None)
      (<["name" := PStr "B. Other"]>
         (<["age" := PInt 7]>
            (request_body "3" (PFloat (FFin (39 # 1))) (PInt 80) "cough"))).
Proof.
  apply (calculate_priority_fallback_reads_four_fields (fun _ => None)
           (request_body "3" (PFloat (FFin (39 # 1))) (PInt 80) "cough"));
    reflexivity.
Defined.

Section VitalsProperties.

Variable float_of_str : string -> option pyfloat.

Lemma stage_block_agree data1 data2 p :
  data1 !! "cancerStage" = data2 !! "cancerStage" ->
  stage_block data1 p = stage_block data2 p.
Proof. intros H. unfold stage_block, getitem. now rewrite H. Qed.

Lemma keyword_block_agree data1 data2 p :
  data1 !! "description" = data2 !! "description" ->
  keyword_block data1 p = keyword_block data2 p.
Proof.
  intros H. unfold keyword_block.
  now rewrite (any_keyword_in_description_agree _ _ _ H).
Qed.

Lemma vitals_block_unreadable_temperature data e p :
  (let! v := getitem data "temp" in py_float float_of_str v) = Raise e ->
  e = ValueError \/ e = TypeError ->
  vitals_block float_of_str data p = (p, Ret tt).
Proof.
  intros H He. unfold vitals_block, try_pass, mbind, eval. rewrite H.
  destruct He as [-> | ->]; reflexivity.
Qed.

(** X12: a temperature that cannot be converted hides the heart rate.
    When [float(data['temp'])] raises [ValueError] or [TypeError] the
    vital-signs block is abandoned before the heart rate is read, so the
    result is the same for every value of 'heart', abnormal ones
    included. *)
Theorem unreadable_temperature_hides_heart_rate data e heart :
  (let! v := getitem data "temp" in py_float float_of_str v) = Raise e ->
  e = ValueError \/ e = TypeError ->
  calculate_priority_fallback float_of_str (<["heart" := heart]> data)
  = calculate_priority_fallback float_of_str data.
Proof.
  intros H He. rewrite !calculate_priority_fallback_run.
  assert (Ht : (let! v := getitem (<["heart" := heart]> data) "temp" in
                py_float float_of_str v) = Raise e).
  { unfold getitem in *. now rewrite lookup_insert_ne. }
  rewrite (stage_block_agree (<["heart" := heart]> data) data)
    by now rewrite lookup_insert_ne.
  destruct (stage_block data 1) as [p1 [u1|e1]]; [|reflexivity].
  rewrite (vitals_block_unreadable_temperature _ _ _ Ht He),
    (vitals_block_unreadable_temperature _ _ _ H He).
  rewrite (keyword_block_agree (<["heart" := heart]> data) data)
    by now rewrite lookup_insert_ne.
  reflexivity.
Qed.

(** X13: a heart rate that cannot be converted counts as a normal one.
    When [int(data['heart'])] raises [ValueError] or [TypeError] the
    result is the one for a heart rate of 80: the point already given for
    a temperature above 38.5 is kept. *)
Theorem unreadable_heart_rate_counts_as_normal data heart e :
  data !! "heart" = Some heart ->
  py_int heart = Raise e ->
  e = ValueError \/ e = TypeError ->
  calculate_priority_fallback float_of_str data
  = calculate_priority_fallback float_of_str (<["heart" := PInt 80]> data).
Proof.
  intros Hh Hi He. rewrite !calculate_priority_fallback_run.
  rewrite (stage_block_agree (<["heart" := PInt 80]> data) data)
    by now rewrite lookup_insert_ne.
  destruct (stage_block data 1) as [p1 [u1|e1]]; [|reflexivity].
  assert (Hv : vitals_block float_of_str (<["heart" := PInt 80]> data) p1
               = vitals_block float_of_str data p1).
  { unfold vitals_block, try_pass, mbind, eval, getitem.
    rewrite lookup_insert_ne by done. rewrite lookup_insert_eq, Hh.
    destruct (data !! "temp") as [t|]; [|reflexivity]. simpl.
    destruct (py_float float_of_str t) as [f|e0]; [|reflexivity]. simpl.
    destruct (float_gt f (77 # 2)); simpl; rewrite Hi;
      destruct He as [-> | ->]; reflexivity. }
  rewrite Hv.
  destruct (vitals_block float_of_str data p1) as [p2 [u2|e2]]; [|reflexivity].
  rewrite (keyword_block_agree (<["heart" := PInt 80]> data) data)
    by now rewrite lookup_insert_ne.
  reflexivity.
Qed.

End VitalsProperties.

Lemma unreadable_temperature_hides_heart_rate_witness :
  (let! v := getitem (request_body "1" (PStr "n/a") (PInt 80) "cough") "temp" in
   py_float (fun _ => None) v) = Raise ValueError /\
  calculate_priority_fallback (fun _ => None)
    (<["heart" := PInt 190]> (request_body "1" (PStr "n/a") (PInt 80) "cough"))
  = Ret 1.
Proof.
  split; [reflexivity|].
  rewrite (unreadable_temperature_hides_heart_rate (fun _ => None)
             (request_body "1" (PStr "n/a") (PInt 80) "cough")
             ValueError (PInt 190) eq_refl (or_introl eq_refl)).
  reflexivity.
Defined.

Lemma unreadable_heart_rate_counts_as_normal_witness :
  py_int (PStr "fast") = Raise ValueError /\
  calculate_priority_fallback (fun _ => None)
    (request_body "1" (PFloat (FFin (40 # 1))) (PStr "fast") "cough")
  = Ret 2.
Proof.
  split; [reflexivity|].
  rewrite (unreadable_heart_rate_counts_as_normal (fun _ => None)
             (request_body "1" (PFloat (FFin (40 # 1))) (PStr "fast") "cough")
             (PStr "fast") ValueError eq_refl eq_refl (or_introl eq_refl)).
  reflexivity.
Defined.

(** ** Further properties of [calculate_appointment] *)

Lemma accepted_ai_date_not_before now ai_date d :
  accepted_ai_date now ai_date = Some d -> date now <= date d.
Proof.
  unfold accepted_ai_date. destruct ai_date as [s|]; [|discriminate].
  destruct (strptime s) as [d'|e]; [|discriminate].
  destruct (Z.leb_spec (date now) (date d')); [|discriminate].
  now intros [= <-].
Qed.

Lemma calculate_appointment_date now priority ai_date r :
  calculate_appointment now priority ai_date = Ret r -> date now <= date r.
Proof.
  rewrite calculate_appointment_spec.
  destruct (accepted_ai_date now ai_date) as [d|] eqn:Ha.
  - apply accepted_ai_date_not_before in Ha.
    destruct (_ && _); [intros [= <-]; simpl; lia|].
    destruct (_ && _); intros [= <-]; simpl; lia.
  - pose proof (days_offset_nonneg priority).
    destruct (_ && _); intros [= <-]; simpl; lia.
Qed.

(** X14: for priority 4 or 5 the appointment is never later than two days
    from today and never before today, whatever date the AI proposed and
    whatever the hour. *)
Theorem high_priority_within_two_days now priority ai_date :
  priority = 4 \/ priority = 5 ->
  exists r,
    calculate_appointment now priority ai_date = Ret r /\
    date now <= date r <= date now + 2.
Proof.
  intros Hp. rewrite calculate_appointment_spec.
  assert (H4 : (4 <=? priority) = true) by (apply Z.leb_le; lia).
  assert (H3 : (priority =? 3) = false) by (apply Z.eqb_neq; lia).
  rewrite H4, H3. simpl.
  destruct (accepted_ai_date now ai_date) as [d|] eqn:Ha.
  - apply accepted_ai_date_not_before in Ha.
    destruct (Z.ltb_spec 2 (date d - date now)).
    + eexists. split; [reflexivity|]. simpl. lia.
    + exists d. split; [reflexivity|]. lia.
  - destruct (17 <=? hour now).
    + eexists. split; [reflexivity|]. simpl. lia.
    + eexists. split; [reflexivity|]. simpl.
      destruct Hp as [-> | ->]; simpl; lia.
Qed.

Lemma high_priority_within_two_days_witness :
  calculate_appointment jan10_1000 5 (Some "2024-06-30")
    = Ret (at_time 2024 1 11 10 0) /\
  date jan10_1000 <= date (at_time 2024 1 11 10 0) <= date jan10_1000 + 2.
Proof.
  destruct (high_priority_within_two_days jan10_1000 5 (Some "2024-06-30")
              (or_intror eq_refl)) as (r & Hr & Hd).
  assert (Hc : calculate_appointment jan10_1000 5 (Some "2024-06-30")
               = Ret (at_time 2024 1 11 10 0)) by reflexivity.
  rewrite Hc in Hr. injection Hr as <-.
  split; [exact Hc|exact Hd].
Defined.

(** X15: for priority 3 the appointment is never later than seven days
    from today and never before today. *)
Theorem medium_priority_within_seven_days now ai_date priority :
  priority = 3 ->
  exists r,
    calculate_appointment now priority ai_date = Ret r /\
    date now <= date r <= date now + 7.
Proof.
  intros ->. rewrite calculate_appointment_spec. simpl.
  destruct (accepted_ai_date now ai_date) as [d|] eqn:Ha.
  - apply accepted_ai_date_not_before in Ha.
    destruct (Z.ltb_spec 7 (date d - date now)).
    + eexists. split; [reflexivity|]. simpl. lia.
    + exists d. split; [reflexivity|]. lia.
  - eexists. split; [reflexivity|]. simpl. lia.
Qed.

Lemma medium_priority_within_seven_days_witness :
  calculate_appointment jan10_1000 3 (Some "2024-01-16")
    = Ret (at_time 2024 1 16 0 0) /\
  date jan10_1000 <= date (at_time 2024 1 16 0 0) <= date jan10_1000 + 7.
Proof.
  destruct (medium_priority_within_seven_days jan10_1000 (Some "2024-01-16")
              3 eq_refl) as (r & Hr & Hd).
  assert (Hc : calculate_appointment jan10_1000 3 (Some "2024-01-16")
               = Ret (at_time 2024 1 16 0 0)) by reflexivity.
  rewrite Hc in Hr. injection Hr as <-.
  split; [exact Hc|exact Hd].
Defined.

(** X16: for priorities below 3 an accepted AI date is used as it is, at
    midnight, however far in the future it lies: the caps on the distance
    exist for priorities 3, 4 and 5 only. *)
Theorem low_priority_keeps_ai_date now priority s d :
  priority < 3 ->
  strptime s = Ret d -> date now <= date d ->
  calculate_appointment now priority (Some s) = Ret d /\
  d = midnight_plus_hours (date d) 0.
Proof.
  intros Hp Hs Hd. split; [|now apply strptime_midnight with s].
  rewrite calculate_appointment_spec. unfold accepted_ai_date. rewrite Hs.
  destruct (Z.leb_spec (date now) (date d)); [|lia].
  destruct (Z.leb_spec 4 priority); [lia|].
  destruct (Z.eqb_spec priority 3); [lia|]. reflexivity.
Qed.

Lemma low_priority_keeps_ai_date_witness :
  1 < 3 /\
  strptime "9999-12-31" = Ret (at_time 9999 12 31 0 0) /\
  date jan10_1000 <= date (at_time 9999 12 31 0 0) /\
  calculate_appointment jan10_1000 1 (Some "9999-12-31")
    = Ret (at_time 9999 12 31 0 0).
Proof.
  assert (H1 : 1 < 3) by reflexivity.
  assert (H2 : strptime "9999-12-31" = Ret (at_time 9999 12 31 0 0))
    by reflexivity.
  assert (H3 : date jan10_1000 <= date (at_time 9999 12 31 0 0))
    by (vm_compute; discriminate).
  split; [exact H1|]. split; [exact H2|]. split; [exact H3|].
  exact (proj1 (low_priority_keeps_ai_date jan10_1000 1 "9999-12-31"
                  (at_time 9999 12 31 0 0) H1 H2 H3)).
Defined.

(** ** Properties of [add_patient] *)

Lemma first_missing_field_some data fields f :
  first_missing_field data fields = Some f ->
  exists before after,
    fields = (before ++ f :: after)%list /\
    (forall g, In g before -> present_and_true data g) /\
    absent_or_false data f.
Proof.
  induction fields as [|g fields IH]; simpl; [discriminate|].
  destruct (data !! g) as [v|] eqn:Hg.
  - destruct (truthy v) eqn:Hv.
    + intros H. destruct (IH H) as (before & after & -> & Hb & Hf).
      exists (g :: before), after. split; [reflexivity|]. split; [|exact Hf].
      intros g' [<-|Hin]; [now exists v|now apply Hb].
    + intros [= <-]. exists [], fields. split; [reflexivity|].
      split; [intros g' []|]. right. now exists v.
  - intros [= <-]. exists [], fields. split; [reflexivity|].
    split; [intros g' []|]. now left.
Qed.

Lemma first_missing_field_none data fields :
  first_missing_field data fields = None ->
  forall g, In g fields -> present_and_true data g.
Proof.
  induction fields as [|f fields IH]; simpl; [intros _ g []|].
  destruct (data !! f) as [v|] eqn:Hf; [|discriminate].
  destruct (truthy v) eqn:Hv; [|discriminate].
  intros H g [<-|Hin]; [now exists v|now apply IH].
Qed.

Lemma absent_or_false_not_present data f :
  absent_or_false data f -> present_and_true data f -> False.
Proof.
  intros [H|(v & H & Hv)] (w & Hw & Hw'); congruence.
Qed.

Lemma calculate_appointment_value_date now priority v r :
  calculate_appointment_value now priority v = Ret r -> date now <= date r.
Proof.
  unfold calculate_appointment_value.
  destruct (truthy v); [|apply calculate_appointment_date].
  destruct v; try discriminate. apply calculate_appointment_date.
Qed.

Section AddPatientProperties.

Variable float_of_str : string -> option pyfloat.

(** X17: a POST whose body lacks one of the nine required fields, or holds
    a false value for it (an empty string, the number 0, null, false, an
    empty list or object), is answered with status 400 and the name of the
    first such field in the order name, email, age, cancerStage,
    therapytype, temp, heart, blood, description; no patient is created
    and the AI is not consulted. *)
Theorem add_patient_missing_field now ai data :
  (exists f, In f required_fields /\ absent_or_false data f) ->
  exists before f after,
    required_fields = (before ++ f :: after)%list /\
    (forall g, In g before -> present_and_true data g) /\
    absent_or_false data f /\
    add_patient float_of_str now ai "POST" (Some data)
      = ErrorResponse 400 (MissingRequiredField f).
Proof.
  intros (f & Hin & Hf). unfold add_patient. rewrite String.eqb_refl.
  destruct (first_missing_field data required_fields) as [g|] eqn:Hm.
  - apply first_missing_field_some in Hm as (before & after & Heq & Hb & Hg).
    exists before, g, after. repeat split; assumption || reflexivity.
  - destruct (absent_or_false_not_present data f Hf).
    now apply (first_missing_field_none _ _ Hm).
Qed.

(** X18: everything [add_patient] creates satisfies three invariants,
    whichever of the AI answer and the fallback produced it: the priority
    is at most 5, the calendar date of the appointment is not before
    today's, and the request was a POST with all nine required fields
    present and true. *)
Theorem add_patient_created_invariants json_loads now api method body
    priority appointment :
  add_patient float_of_str now
    match api with
    | Some response_data => get_ai_recommendation json_loads response_data
    | None => None
    end method body
  = Created priority appointment ->
  priority <= 5 /\
  date now <= date appointment /\
  method = "POST" /\
  exists data,
    body = Some data /\
    forall f, In f required_fields -> present_and_true data f.
Proof.
  unfold add_patient.
  destruct (String.eqb_spec method "POST") as [->|]; [|discriminate].
  destruct body as [data|]; [|discriminate].
  destruct (first_missing_field data required_fields) eqn:Hm; [discriminate|].
  set (ai := match api with
             | Some rd => get_ai_recommendation json_loads rd
             | None => None
             end).
  assert (Hai : forall r, ai = Some r -> rec_priority r <= 5).
  { intros r Hr. unfold ai in Hr. destruct api as [rd|]; [|discriminate].
    apply get_ai_recommendation_text in Hr as (t & _ & Hr).
    apply recommendation_of_text_range in Hr. lia. }
  intros H.
  assert (Hpa : priority <= 5 /\ date now <= date appointment).
  { unfold triage in H.
    assert (Hfb :
      match
        (let! p := calculate_priority_fallback float_of_str data in
         let! a := calculate_appointment now p None in Ret (p, a))
      with
      | Ret (p, a) => Created p a
      | Raise e => ErrorResponse 400 (ExceptionText e)
      end = Created priority appointment ->
      priority <= 5 /\ date now <= date appointment).
    { destruct (calculate_priority_fallback float_of_str data) as [p|e] eqn:Hp;
        [|discriminate]. simpl.
      destruct (calculate_appointment now p None) as [a|e] eqn:Ha;
        [|discriminate]. simpl.
      intros [= <- <-]. split.
      - now apply (calculate_priority_fallback_le_5 float_of_str data).
      - now apply calculate_appointment_date in Ha. }
    destruct ai as [r|] eqn:Hr; [|exact (Hfb H)].
    destruct (calculate_appointment_value now (rec_priority r)
                (rec_appointment r)) as [a|e] eqn:Ha; simpl in H;
      [|exact (Hfb H)].
    injection H as <- <-. split; [now apply Hai|].
    now apply calculate_appointment_value_date in Ha. }
  destruct Hpa as [Hp Ha]. repeat split; try assumption.
  exists data. split; [reflexivity|].
  now apply first_missing_field_none.
Qed.

(** X19: an AI answer whose appointment is a true value that is not a
    string (a number, a list, an object) is thrown away as a whole: the
    [TypeError] of [strptime] escapes [calculate_appointment], and
    [add_patient] answers exactly as if the AI call had failed, its
    priority included. *)
Theorem add_patient_discards_ai_on_bad_appointment now r method body :
  truthy (rec_appointment r) = true ->
  (forall s, rec_appointment r <> PStr s) ->
  add_patient float_of_str now (Some r) method body
  = add_patient float_of_str now None method body.
Proof.
  intros Ht Hs. unfold add_patient, triage, calculate_appointment_value.
  rewrite Ht.
  destruct (rec_appointment r) as [|b|z|f|s|l|d]; try reflexivity.
  now destruct (Hs s).
Qed.

(** X20: when the AI returned a priority with an appointment that is a
    string or a false value, a valid request is always accepted with the
    AI's priority: the fallback is not run, so nothing in the vital signs
    or the description can make the request fail. *)
Theorem add_patient_uses_ai_answer now r data :
  (forall f, In f required_fields -> present_and_true data f) ->
  truthy (rec_appointment r) = false \/ (exists s, rec_appointment r = PStr s) ->
  exists appointment,
    calculate_appointment_value now (rec_priority r) (rec_appointment r)
      = Ret appointment /\
    add_patient float_of_str now (Some r) "POST" (Some data)
      = Created (rec_priority r) appointment.
Proof.
  intros Hall Hv.
  assert (Hm : first_missing_field data required_fields = None).
  { destruct (first_missing_field data required_fields) as [g|] eqn:Hm;
      [|reflexivity].
    apply first_missing_field_some in Hm as (before & after & Heq & _ & Hg).
    destruct (absent_or_false_not_present data g Hg).
    apply Hall. rewrite Heq. apply in_or_app. right. now left. }
  assert (Ha : exists a,
             calculate_appointment_value now (rec_priority r)
               (rec_appointment r) = Ret a).
  { unfold calculate_appointment_value.
    destruct Hv as [-> | [s ->]].
    - apply calculate_appointment_total.
    - destruct (truthy (PStr s)); apply calculate_appointment_total. }
  destruct Ha as [a Ha]. exists a. split; [exact Ha|].
  unfold add_patient, triage. rewrite String.eqb_refl, Hm, Ha. reflexivity.
Qed.

(** X21: with the nine fields present, the computation of the priority
    and the appointment (the inner [try] of [add_patient] with its
    [except] branch, before the patient is built) raises only out of the
    fallback, whether the AI call failed or its answer was thrown away,
    and in three ways only: [KeyError], and then 'cancerStage' is a JSON
    object; [AttributeError], and then 'description' is not a string; or
    [OverflowError].  It never raises [ValueError], [TypeError] or
    [IndexError]. *)
Theorem triage_fallback_failures now ai data e :
  (forall f, In f required_fields -> present_and_true data f) ->
  triage float_of_str now ai data = Raise e ->
  calculate_priority_fallback float_of_str data = Raise e /\
  ((e = KeyError /\ exists d, data !! "cancerStage" = Some (PDict d)) \/
   (e = AttributeError /\
    exists v, data !! "description" = Some v /\ forall s, v <> PStr s) \/
   e = OverflowError).
Proof.
  intros Hall Ht.
  assert (Hfb : triage float_of_str now None data = Raise e).
  { unfold triage in *. destruct ai as [r|]; [|exact Ht].
    destruct (calculate_appointment_value now (rec_priority r)
                (rec_appointment r)); simpl in Ht; [discriminate|exact Ht]. }
  clear Ht. revert Hfb. unfold triage.
  assert (Hpresent : forall f, In f required_fields -> data !! f <> None).
  { intros f Hf. destruct (Hall f Hf) as (v & -> & _). discriminate. }
  destruct (calculate_priority_fallback float_of_str data) as [p|e0] eqn:Hp;
    simpl.
  - destruct (calculate_appointment_total now p None) as [a ->]. discriminate.
  - intros [= <-]. split; [reflexivity|].
    rewrite calculate_priority_fallback_run in Hp.
    destruct (stage_block data 1) as [p1 [u1|e1]] eqn:H1.
    + destruct (vitals_block float_of_str data p1) as [p2 [u2|e2]] eqn:H2.
      * destruct (keyword_block data p2) as [p3 [u3|e3]] eqn:H3;
          [discriminate|].
        injection Hp as ->. unfold keyword_block, mbind, eval in H3.
        destruct (any_keyword_in_description data emergency_keywords)
          as [hit|e3] eqn:Hk.
        -- destruct hit; discriminate.
        -- injection H3 as _ ->.
           apply any_keyword_in_description_raises in Hk
             as [[_ Hk]|[-> Hk]].
           ++ destruct (Hpresent "description"); [simpl; tauto|exact Hk].
           ++ right. left. split; [reflexivity|exact Hk].
      * injection Hp as ->.
        apply vitals_block_raises in H2 as [[_ [Hk|Hk]]| ->].
        -- destruct (Hpresent "temp"); [simpl; tauto|exact Hk].
        -- destruct (Hpresent "heart"); [simpl; tauto|exact Hk].
        -- right. now right.
    + injection Hp as ->.
      apply stage_block_raises in H1 as [[-> [Hk|Hk]]| ->].
      * destruct (Hpresent "cancerStage"); [simpl; tauto|exact Hk].
      * left. split; [reflexivity|exact Hk].
      * right. now right.
Qed.

End AddPatientProperties.

Lemma extract_date_from_text_leftmost_witness :
  extract_date_from_text "first 2024-03-20, then 2025-01-01" = Some "2024-03-20" /\
  date_shaped "2024-03-20" = true.
Proof.
  split; [reflexivity|].
  exact (proj1 (extract_date_from_text_leftmost
                  "first 2024-03-20, then 2025-01-01" "2024-03-20" eq_refl)).
Defined.

Lemma extract_date_from_text_none_iff_witness :
  extract_date_from_text "tomorrow, 20.03.2024" = None /\
  date_shaped "20.03.2024" = false.
Proof.
  split; [reflexivity|].
  apply (proj1 (extract_date_from_text_none_iff "tomorrow, 20.03.2024")
           eq_refl "tomorrow, " "20.03.2024" "").
  reflexivity.
Defined.

Lemma add_patient_missing_field_witness :
  absent_or_false
    (<["age" := PInt 0]>
       (request_body "2" (PFloat (FFin (37 # 1))) (PInt 80) "cough")) "age" /\
  add_patient (fun _ => None) jan10_1000 None "POST"
    (Some (<["age" := PInt 0]>
             (request_body "2" (PFloat (FFin (37 # 1))) (PInt 80) "cough")))
  = ErrorResponse 400 (MissingRequiredField "age").
Proof.
  assert (Hf : absent_or_false
                 (<["age" := PInt 0]>
                    (request_body "2" (PFloat (FFin (37 # 1))) (PInt 80)
                       "cough")) "age")
    by (right; exists (PInt 0); split; reflexivity).
  split; [exact Hf|].
  destruct (add_patient_missing_field (fun _ => None) jan10_1000 None
              (<["age" := PInt 0]>
                 (request_body "2" (PFloat (FFin (37 # 1))) (PInt 80) "cough")))
    as (before & f & after & _ & _ & _ & H).
  - exists "age". split; [simpl; tauto|exact Hf].
  - reflexivity.
Defined.

Lemma add_patient_created_invariants_witness :
  add_patient (fun _ => None) jan10_1000
    (get_ai_recommendation (fun _ => DecodeError)
       (api_answer (PStr "Priority: 4, on 2024-01-11")))
    "POST"
    (Some (request_body "2" (PFloat (FFin (37 # 1))) (PInt 80) "cough"))
  = Created 4 (at_time 2024 1 11 0 0) /\
  4 <= 5 /\ date jan10_1000 <= date (at_time 2024 1 11 0 0).
Proof.
  assert (H : add_patient (fun _ => None) jan10_1000
                (get_ai_recommendation (fun _ => DecodeError)
                   (api_answer (PStr "Priority: 4, on 2024-01-11")))
                "POST"
                (Some (request_body "2" (PFloat (FFin (37 # 1))) (PInt 80)
                         "cough"))
              = Created 4 (at_time 2024 1 11 0 0)) by reflexivity.
  split; [exact H|].
  destruct (add_patient_created_invariants (fun _ => None)
              (fun _ => DecodeError) jan10_1000
              (Some (api_answer (PStr "Priority: 4, on 2024-01-11")))
              "POST"
              (Some (request_body "2" (PFloat (FFin (37 # 1))) (PInt 80)
                       "cough"))
              4 (at_time 2024 1 11 0 0) H) as (Hp & Hd & _).
  split; [exact Hp|exact Hd].
Defined.

Lemma add_patient_discards_ai_on_bad_appointment_witness :
  truthy (PInt 20240111) = true /\
  add_patient (fun _ => None) jan10_1000
    (Some (mkRecommendation 5 (PInt 20240111))) "POST"
    (Some (request_body "2" (PFloat (FFin (37 # 1))) (PInt 80) "cough"))
  = Created 2 (at_time 2024 1 20 10 0).
Proof.
  split; [reflexivity|].
  rewrite (add_patient_discards_ai_on_bad_appointment (fun _ => None)
             jan10_1000 (mkRecommendation 5 (PInt 20240111)) "POST"
             (Some (request_body "2" (PFloat (FFin (37 # 1))) (PInt 80)
                      "cough"))
             eq_refl).
  - reflexivity.
  - discriminate.
Defined.

Lemma add_patient_uses_ai_answer_witness :
  calculate_priority_fallback (fun _ => None)
    (request_body "2" (PFloat (FFin (37 # 1))) (PFloat (FInf false)) "cough")
  = Raise OverflowError /\
  add_patient (fun _ => None) jan10_1000
    (Some (mkRecommendation 3 (PStr "2024-01-12"))) "POST"
    (Some (request_body "2" (PFloat (FFin (37 # 1))) (PFloat (FInf false))
             "cough"))
  = Created 3 (at_time 2024 1 12 0 0).
Proof.
  split; [reflexivity|].
  destruct (add_patient_uses_ai_answer (fun _ => None) jan10_1000
              (mkRecommendation 3 (PStr "2024-01-12"))
              (request_body "2" (PFloat (FFin (37 # 1))) (PFloat (FInf false))
                 "cough")) as (a & Ha & H).
  - apply first_missing_field_none. reflexivity.
  - right. now exists "2024-01-12".
  - assert (Hc : calculate_appointment_value jan10_1000 3 (PStr "2024-01-12")
                 = Ret (at_time 2024 1 12 0 0)) by reflexivity.
    simpl rec_priority in *. simpl rec_appointment in *.
    rewrite Hc in Ha. injection Ha as <-. exact H.
Defined.

Lemma triage_fallback_failures_witness :
  triage (fun _ => None) jan10_1000
    (Some (mkRecommendation 5 (PInt 20240111)))
    (<["description" := PInt 7]>
       (request_body "2" (PFloat (FFin (37 # 1))) (PInt 80) "cough"))
  = Raise AttributeError /\
  calculate_priority_fallback (fun _ => None)
    (<["description" := PInt 7]>
       (request_body "2" (PFloat (FFin (37 # 1))) (PInt 80) "cough"))
  = Raise AttributeError /\
  ((AttributeError = KeyError /\
    exists d,
      <["description" := PInt 7]>
        (request_body "2" (PFloat (FFin (37 # 1))) (PInt 80) "cough")
      !! "cancerStage" = Some (PDict d)) \/
   (AttributeError = AttributeError /\
    exists v,
      <["description" := PInt 7]>
        (request_body "2" (PFloat (FFin (37 # 1))) (PInt 80) "cough")
      !! "description" = Some v /\ forall s, v <> PStr s) \/
   AttributeError = OverflowError).
Proof.
  split; [reflexivity|].
  apply (triage_fallback_failures (fun _ => None) jan10_1000
           (Some (mkRecommendation 5 (PInt 20240111)))).
  - apply first_missing_field_none. reflexivity.
  - reflexivity.
Defined.

(** ** [main.py]: the diagnosis of [diagnose_form] *)

(** X22: in the answer of the chat API each of the keys 'choices',
    'message' and 'content' may be missing and the diagnosis is then the
    text "No response"; when all three are there the diagnosis is the
    content.  The default only covers a missing key: an answer whose
    'choices' is the empty list raises [IndexError] instead. *)
Theorem diagnosis_of_defaults d :
  (items_lookup d "choices" = None ->
   diagnosis_of (PDict d) = Ret (PStr "No response")) /\
  (forall c rest,
     items_lookup d "choices" = Some (PList (PDict c :: rest)) ->
     (items_lookup c "message" = None ->
      diagnosis_of (PDict d) = Ret (PStr "No response")) /\
     (forall m,
        items_lookup c "message" = Some (PDict m) ->
        (items_lookup m "content" = None ->
         diagnosis_of (PDict d) = Ret (PStr "No response")) /\
        (forall v, items_lookup m "content" = Some v ->
                   diagnosis_of (PDict d) = Ret v))) /\
  (items_lookup d "choices" = Some (PList []) ->
   diagnosis_of (PDict d) = Raise IndexError).
Proof.
  unfold diagnosis_of. simpl. split; [|split].
  - intros ->. reflexivity.
  - intros c rest ->. simpl. split.
    + intros ->. reflexivity.
    + intros m ->. simpl. split; [intros ->; reflexivity|].
      intros v ->. reflexivity.
  - intros ->. reflexivity.
Qed.

Lemma diagnosis_of_defaults_witness :
  diagnosis_of (PDict [("id", PStr "x")]) = Ret (PStr "No response") /\
  diagnosis_of
    (PDict [("choices",
             PList [PDict [("message", PDict [("content", PStr "Rest.")])]])])
  = Ret (PStr "Rest.") /\
  diagnosis_of (PDict [("choices", PList [])]) = Raise IndexError.
Proof.
  split; [|split].
  - apply (proj1 (diagnosis_of_defaults [("id", PStr "x")])). reflexivity.
  - destruct (diagnosis_of_defaults
                [("choices",
                  PList [PDict [("message",
                                 PDict [("content", PStr "Rest.")])]])])
      as (_ & H & _).
    destruct (H [("message", PDict [("content", PStr "Rest.")])] []
                eq_refl) as [_ H1].
    destruct (H1 [("content", PStr "Rest.")] eq_refl) as [_ H2].
    apply H2. reflexivity.
  - apply (proj2 (proj2 (diagnosis_of_defaults [("choices", PList [])]))).
    reflexivity.
Defined.
